(** * keephy_gateway: the request pipeline of [src/index.js]

    A shallow embedding of the gateway's Express application: the layers it
    registers, in registration order, the handlers behind them, and the
    process-wide admission counter [TOKENS].

    Modelling boundary.
    - The framework, Express: a request walks the registered layers in
      order.  An [app.use] layer matches a path prefix on segment
      boundaries, a route layer matches the whole path (a trailing slash is
      tolerated, a [:param] takes one non-empty segment) and then the verb,
      a GET route serving HEAD as well.  Literal segments are compared
      without regard to ASCII case.  Parameters are percent-decoded; a
      parameter that does not decode ends the walk with the framework's 400.
      A handler that answers ends the walk, a handler that calls [next()]
      hands the request to the following layers; when no layer answers the
      framework replies 404.
    - The third-party layers: [pinoHttp] and [helmet] pass every request on;
      [cors] answers every OPTIONS request itself, with 204; [express.json]
      either passes the request on with [req.body] set, or raises an error
      that the framework answers with the status of the error.
    - A text is a [string]; what JavaScript computes from texts and numbers
      beyond comparing and appending them (UTF-16 units, the decimal form of
      a number, percent-decoding) is a record of oracles, [Runtime].
    - The outside world ([jwt.verify], [fetch], [uuid], [process.env]) is a
      record of oracles too; the theorems quantify over both, the examples
      run on a small deployment.
    - An answer is what a handler passes to [res.status(..).json(..)]; the
      headers of the answer and the way the framework writes it out are
      not modelled.
    - One request is served without interleaving of another one.  The only
      shared state is [TOKENS], a double, which a request reads and writes
      in one synchronous block (lines 53-54), so the order in which requests
      reach that block is the order of the model. *)

From Stdlib Require Import ZArith List String Ascii Bool Lia DecimalString.
From Stdlib Require Import Uint63 Floats.
Import ListNotations.
Open Scope string_scope.
Open Scope Z_scope.
Set Warnings "-register-all".

(* ------------------------------------------------------------------ *)
(** ** JavaScript values *)

(** Values that travel as JSON.  A number is a double. *)
Inductive json : Type :=
| JNull
| JBool (b : bool)
| JNum (x : float)
| JStr (s : string)
| JArr (l : list json)
| JObj (fields : list (string * json)).

(** A JavaScript expression may also be [undefined]: [None]. *)
Definition value := option json.

(** What the runtime computes from texts and numbers. *)
Record Runtime : Type := {
  (** [String(x)] *)
  number_text : float -> string;
  (** [s[i]]: the UTF-16 unit of [s] at index [i], as a text; [None] when
      [s] has no such unit *)
  code_unit : string -> N -> option string;
  (** [s.length]: the number of UTF-16 units of [s] *)
  code_units : string -> float;
  (** [decodeURIComponent(s)]; [None] when it throws URIError *)
  decodeURIComponent : string -> option string
}.

(** Neither [0], [-0] nor [NaN]. *)
Definition nonzero (x : float) : bool := (negb (x =? 0) && (x =? x))%float.

Definition truthy (v : value) : bool :=
  match v with
  | None => false
  | Some JNull => false
  | Some (JBool b) => b
  | Some (JNum x) => nonzero x
  | Some (JStr s) => negb (String.eqb s "")
  | Some (JArr _) => true
  | Some (JObj _) => true
  end.

(** [a || b] *)
Definition js_or (a b : value) : value := if truthy a then a else b.
(** [a && b] *)
Definition js_and (a b : value) : value := if truthy a then b else a.

Fixpoint lookup (k : string) (fs : list (string * json)) : value :=
  match fs with
  | [] => None
  | (k', v) :: fs' => if String.eqb k k' then Some v else lookup k fs'
  end.

(** The index a property name spells: "0", "1", "2", .. and no other
    spelling ("01" and "+1" are ordinary names). *)
Definition index_of (k : string) : option N :=
  match NilEmpty.uint_of_string k with
  | Some d =>
      if String.eqb (NilEmpty.string_of_uint (N.to_uint (N.of_uint d))) k
      then Some (N.of_uint d)
      else None
  | None => None
  end.

(** [l[i]] *)
Definition item (l : list json) (i : N) : value :=
  if (i <? N.of_nat (List.length l))%N then nth_error l (N.to_nat i) else None.

(** The length of a list as a number (a JavaScript array is shorter than
    2^32). *)
Definition count (l : list json) : float :=
  of_uint63 (Uint63.of_Z (Z.of_nat (List.length l))).

(** [v?.k], and [v.k] / [v[k]] where the source has made sure [v] is neither
    [null] nor [undefined].  The properties are the own ones: the fields of
    an object, the items and the length of an array, the units and the
    length of a text.  A name that only a prototype supplies ([toString],
    [constructor], ..) answers a function or an object of the runtime, which
    is no JSON value; [None] stands for it.  That is exact where the source
    reads a name of its choice, [scopes], [orgId], [businesses], [id],
    [features], [modules] and [0], which no prototype supplies, and where
    the result is only compared with [false], as the guards do with the key
    they are given. *)
Definition get (rt : Runtime) (k : string) (v : value) : value :=
  match v with
  | Some (JObj fs) => lookup k fs
  | Some (JArr l) =>
      if String.eqb k "length" then Some (JNum (count l))
      else match index_of k with
           | Some i => item l i
           | None => None
           end
  | Some (JStr s) =>
      if String.eqb k "length" then Some (JNum (code_units rt s))
      else match index_of k with
           | Some i => option_map JStr (code_unit rt s i)
           | None => None
           end
  | _ => None
  end.

(** [v?.[0]] *)
Definition index0 (rt : Runtime) (v : value) : value := get rt "0" v.

(** [v === false] *)
Definition is_false (v : value) : bool :=
  match v with
  | Some (JBool false) => true
  | _ => false
  end.

Definition join (sep : string) (l : list string) : string := String.concat sep l.

(** The pieces of a template literal, put together. *)
Fixpoint cat (l : list string) : string :=
  match l with
  | [] => ""
  | x :: l' => x ++ cat l'
  end.

(** Every computation of the list went through. *)
Fixpoint sequence {A : Type} (l : list (option A)) : option (list A) :=
  match l with
  | [] => Some []
  | Some x :: l' => option_map (cons x) (sequence l')
  | None :: _ => None
  end.

(** ['' + v]: the text a value turns into when it is appended to a text;
    [None] when the conversion throws TypeError.  An array joins its items
    with commas, [null] counting as the empty text.  An object is
    "[object Object]" by [Object.prototype.toString]; with a field of its
    own called [toString], which is no function in a JSON value, there is
    nothing left to call and the conversion throws. *)
Fixpoint to_string (rt : Runtime) (j : json) : option string :=
  match j with
  | JNull => Some "null"
  | JBool true => Some "true"
  | JBool false => Some "false"
  | JNum x => Some (number_text rt x)
  | JStr s => Some s
  | JArr l =>
      option_map (join ",")
        (sequence (map (fun x => match x with
                                 | JNull => Some ""
                                 | _ => to_string rt x
                                 end) l))
  | JObj fs =>
      match lookup "toString" fs with
      | Some _ => None
      | None => Some "[object Object]"
      end
  end.

(* ------------------------------------------------------------------ *)
(** ** Configuration: [process.env] *)

Record Env : Type := {
  getenv : string -> option string;
  (** [Number(process.env.RATE_TOKENS)] when the variable holds a non-empty
      text: any double, [NaN] for a text that spells no number; [None] when
      the variable is unset or empty. *)
  RATE_TOKENS : option float
}.

(** [process.env.NAME || dflt] *)
Definition env_or (e : Env) (name dflt : string) : string :=
  match getenv e name with
  | Some s => if String.eqb s "" then dflt else s
  | None => dflt
  end.

(** [Number(process.env.RATE_TOKENS || 200)] *)
Definition ceiling (e : Env) : float :=
  match RATE_TOKENS e with
  | Some x => x
  | None => 200%float
  end.

Inductive Service : Type :=
| ORG | FORMS | SUBMISSIONS | DISCOUNTS | STAFF | NOTIFY | REPORT | I18N
| FLAGS | API_PROG | SEARCH | METER | INTEG | EXPORT | AI_ML | AUDIT
| TENANT_ISOLATION.

Definition base_var (s : Service) : string :=
  match s with
  | ORG => "ORG_SERVICE_URL"
  | FORMS => "FORMS_SERVICE_URL"
  | SUBMISSIONS => "SUBMISSIONS_SERVICE_URL"
  | DISCOUNTS => "DISCOUNTS_SERVICE_URL"
  | STAFF => "STAFF_SERVICE_URL"
  | NOTIFY => "NOTIFICATIONS_SERVICE_URL"
  | REPORT => "REPORTING_SERVICE_URL"
  | I18N => "TRANSLATION_SERVICE_URL"
  | FLAGS => "FEATURE_FLAGS_SERVICE_URL"
  | API_PROG => "API_PROGRAM_SERVICE_URL"
  | SEARCH => "SEARCH_SERVICE_URL"
  | METER => "METERING_SERVICE_URL"
  | INTEG => "INTEGRATION_HUB_SERVICE_URL"
  | EXPORT => "EXPORT_SCHED_SERVICE_URL"
  | AI_ML => "AI_ML_SERVICE_URL"
  | AUDIT => "AUDIT_SERVICE_URL"
  | TENANT_ISOLATION => "TENANT_ISOLATION_SERVICE_URL"
  end.

Definition base_default (s : Service) : string :=
  match s with
  | ORG => "http://localhost:7003"
  | FORMS => "http://localhost:7004"
  | SUBMISSIONS => "http://localhost:3005"
  | DISCOUNTS => "http://localhost:3006"
  | STAFF => "http://localhost:3007"
  | NOTIFY => "http://localhost:3008"
  | REPORT => "http://localhost:3009"
  | I18N => "http://localhost:3010"
  | FLAGS => "http://localhost:3011"
  | API_PROG => "http://localhost:3012"
  | SEARCH => "http://localhost:3013"
  | METER => "http://localhost:3014"
  | INTEG => "http://localhost:3015"
  | EXPORT => "http://localhost:3016"
  | AI_ML => "http://localhost:3017"
  | AUDIT => "http://localhost:3018"
  | TENANT_ISOLATION => "http://localhost:3019"
  end.

(** [const X_BASE = process.env.X_SERVICE_URL || 'http://localhost:N'] *)
Definition base (e : Env) (s : Service) : string :=
  env_or e (base_var s) (base_default s).

(* ------------------------------------------------------------------ *)
(** ** Requests, replies and outgoing calls *)

(** [req.method].  [OTHER] is a verb that is none of the seven named ones. *)
Inductive Method : Type :=
| GET | HEAD | POST | PUT | PATCH | DELETE | OPTIONS
| OTHER (name : string).

Definition method_eqb (a b : Method) : bool :=
  match a, b with
  | GET, GET | HEAD, HEAD | POST, POST | PUT, PUT | PATCH, PATCH
  | DELETE, DELETE | OPTIONS, OPTIONS => true
  | OTHER x, OTHER y => String.eqb x y
  | _, _ => false
  end.

(** The errors [express.json] raises: a body that is no JSON text or whose
    transfer broke off (400), a body over the size limit (413), a charset or
    content encoding it does not read (415).  (Its one other error, 500 for
    a request stream that an earlier layer has read or set an encoding on,
    has no cause here: no layer in front of it touches the stream.) *)
Inductive Refusal : Type := BadRequest | TooLarge | UnsupportedMedia.

(** [err.status] *)
Definition refusal_status (e : Refusal) : Z :=
  match e with
  | BadRequest => 400
  | TooLarge => 413
  | UnsupportedMedia => 415
  end.

Record Request : Type := {
  method : Method;
  (** the segments of [req.path]: ["/api/org/7"] is [["api"; "org"; "7"]] *)
  segs : list string;
  (** [req.headers['x-request-id']] *)
  h_request_id : option string;
  (** [req.headers.authorization] *)
  h_authorization : option string;
  (** [new URLSearchParams(req.query).toString()] *)
  qs : string;
  (** what [express.json] makes of the request: the error it raises, or
      [None] when it passes the request on *)
  refused : option Refusal;
  (** [req.body] as [express.json] leaves it *)
  body : value
}.

(** [req.path] *)
Definition path (r : Request) : string :=
  cat (map (fun s => "/" ++ s) (segs r)).

(** What the middleware hangs on [req]. *)
Record Ctx : Type := {
  rq : Request;
  id : string;            (* req.id *)
  user : value;           (* req.user *)
  entitlements : value    (* req.entitlements *)
}.

Definition init_ctx (r : Request) : Ctx :=
  {| rq := r; id := ""; user := None; entitlements := None |}.

(** The text of an outgoing body: [JSON.stringify(v)]. *)
Inductive OutBody : Type :=
| NoBody
| Stringify (v : value).

Record OutReq : Type := {
  o_method : Method;
  o_url : string;
  o_headers : list (string * value);
  o_body : OutBody
}.

(** [fetch(url)] *)
Definition plain_get (url : string) : OutReq :=
  {| o_method := GET; o_url := url; o_headers := []; o_body := NoBody |}.

(** What awaiting [fetch(..)] and then [r.json()] can bring. *)
Inductive FetchResult : Type :=
| Rejected                                    (* fetch throws *)
| Reply (status : Z) (decoded : option json). (* [None]: r.json() throws *)

(** [resp.ok] *)
Definition ok (status : Z) : bool := (200 <=? status) && (status <=? 299).

(** How a request ends: the answer as the layer that gives it hands it to
    the framework.  What the framework then writes follows from it and is
    not modelled: to a HEAD request the status and the headers go out
    without the body, and a 2xx answer to a GET or HEAD whose cache
    validator matches it goes out as 304. *)
Inductive Response : Type :=
| Json (status : Z) (body : json)   (* res.status(status).json(body) *)
| Lib (status : Z)                  (* answered by cors or by the framework's
                                       error handler: no body of the gateway *)
| NotFound.                         (* no layer answered *)

(** [jwt.verify] returns the payload: an object, or a string. *)
Inductive Payload : Type :=
| PObj (fields : list (string * json))
| PStr (s : string).

Definition payload_json (p : Payload) : json :=
  match p with
  | PObj fs => JObj fs
  | PStr s => JStr s
  end.

Record World : Type := {
  js : Runtime;
  boot : Env;       (* process.env when the module was loaded *)
  env : Env;        (* process.env while the request is served *)
  uuid : string;    (* what uuid() returns for this request *)
  (** [jwt.verify(token, secret)]; [None] when it throws *)
  jwt_verify : string -> string -> option Payload;
  net : OutReq -> FetchResult
}.

(* ------------------------------------------------------------------ *)
(** ** Effects: the admission counter and the calls that leave the process *)

Inductive Seg : Type :=
| Lit (s : string)
| Par (name : string).    (* :name *)

(** The second argument of [fetch]. *)
Inductive Opts : Type :=
| Plain                   (* fetch(url) *)
| Bare (m : Method)       (* { method: 'DELETE' } *)
| Send (m : Method) (content_type : string) (x_user_id : bool).
    (* { method, headers: { <content_type>: 'application/json'
                            [, 'x-user-id': req.user?.id || ''] },
         body: JSON.stringify(req.body) } *)

(** One proxy handler of the source: where it sends the request and the
    service name of its 502 message. *)
Record RouteBinding : Type := {
  svc : Service;
  dpath : list Seg;       (* the path appended to the base address *)
  with_qs : bool;         (* whether "?" and the query string follow *)
  opts : Opts;
  label : string          (* '<label>-service unavailable' *)
}.

(** The place in the source that issues a call. *)
Inductive Site : Type :=
| SEntitlements               (* the auth middleware *)
| SProbe                      (* /readyz/full *)
| SProxy (b : RouteBinding)   (* a proxy handler *)
| SMeter.                     (* meterWrite *)

Definition Call : Type := Site * OutReq.

#[projections(primitive)]
Record Res (A : Type) : Type := {
  val : A;
  tokens : float;         (* TOKENS afterwards *)
  calls : list Call       (* calls issued, in order *)
}.
Arguments val {A} _.
Arguments tokens {A} _.
Arguments calls {A} _.

(** A computation reads and writes [TOKENS] and issues calls. *)
Definition M (A : Type) : Type := float -> Res A.

Definition ret {A : Type} (a : A) : M A :=
  fun t => {| val := a; tokens := t; calls := [] |}.

Definition bind {A B : Type} (m : M A) (k : A -> M B) : M B :=
  fun t =>
    let r1 := m t in
    let r2 := k (val r1) (tokens r1) in
    {| val := val r2; tokens := tokens r2; calls := calls r1 ++ calls r2 |}.

Notation "'let*' x ':=' m 'in' k" := (bind m (fun x => k))
  (at level 10, x name, m at level 100, k at level 200).

(** [await fetch(..)] followed, where the source does so, by [await r.json()] *)
Definition fetch (w : World) (site : Site) (o : OutReq) : M FetchResult :=
  fun t => {| val := net w o; tokens := t; calls := [(site, o)] |}.

Fixpoint mapM {A B : Type} (f : A -> M B) (l : list A) : M (list B) :=
  match l with
  | [] => ret []
  | x :: l' => let* y := f x in let* ys := mapM f l' in ret (y :: ys)
  end.

(** A handler either answers or calls [next()]. *)
Inductive Step : Type :=
| Next (c : Ctx)
| Done (r : Response).

(* ------------------------------------------------------------------ *)
(** ** The middleware *)

(** Lines 13-17: [req.id = req.headers['x-request-id'] || uuid()]. *)
Definition requestId (w : World) (c : Ctx) : M Step :=
  let ident :=
    match h_request_id (rq c) with
    | Some s => if String.eqb s "" then uuid w else s
    | None => uuid w
    end in
  ret (Next {| rq := rq c; id := ident; user := user c;
               entitlements := entitlements c |}).

Definition openPaths : list string := ["/healthz"; "/readyz"; "/auth/login"].

Definition includes (s : string) (l : list string) : bool :=
  existsb (String.eqb s) l.

(** [x || dflt] where [dflt] is a value *)
Definition or_else (a : value) (dflt : json) : json :=
  match a with
  | Some j => if truthy a then j else dflt
  | None => dflt
  end.

(** [p.scopes?.orgId || p.scopes?.businesses?.[0] || 'default'] *)
Definition tenant_of (rt : Runtime) (principal : value) : json :=
  let scopes := get rt "scopes" principal in
  or_else (js_or (get rt "orgId" scopes) (index0 rt (get rt "businesses" scopes)))
          (JStr "default").

(** [process.env.ENTITLEMENTS_URL || 'http://localhost:7002/entitlements/' + tenantId]:
    [+] binds tighter than [||], and the right-hand side is evaluated only
    when the variable is unset or empty.  [None]: the concatenation throws. *)
Definition entitlements_url (rt : Runtime) (e : Env) (tenantId : json)
    : option string :=
  let appended :=
    option_map (append "http://localhost:7002/entitlements/")
               (to_string rt tenantId) in
  match getenv e "ENTITLEMENTS_URL" with
  | Some u => if String.eqb u "" then appended else Some u
  | None => appended
  end.

(** [auth.startsWith('Bearer ') ? auth.slice(7) : null] *)
Definition bearer (auth : string) : option string :=
  if prefix "Bearer " auth
  then Some (substring 7 (String.length auth - 7) auth)
  else None.

(** [resp.ok ? await resp.json() : { modules: {}, features: {} }], inside
    [try { .. } catch { req.entitlements = { modules: {}, features: {} } }] *)
Definition resolved (r : FetchResult) : json :=
  match r with
  | Rejected => JObj [("modules", JObj []); ("features", JObj [])]
  | Reply s d =>
      if ok s
      then match d with
           | Some j => j
           | None => JObj [("modules", JObj []); ("features", JObj [])]
           end
      else JObj [("modules", JObj []); ("features", JObj [])]
  end.

(** Lines 24-46: the auth + entitlements middleware.  Building the address
    (line 36) stands inside the inner [try]: when it throws, no call is made
    and the [catch] of line 39 assigns the empty set. *)
Definition auth (w : World) (c : Ctx) : M Step :=
  if includes (path (rq c)) openPaths then ret (Next c) else
  let header := match h_authorization (rq c) with Some s => s | None => "" end in
  match bearer header with
  | None =>
      ret (Done (Json 401 (JObj [("message", JStr "Missing token");
                                 ("requestId", JStr (id c))])))
  | Some token =>
      if String.eqb token ""
      then ret (Done (Json 401 (JObj [("message", JStr "Missing token");
                                      ("requestId", JStr (id c))])))
      else
        match jwt_verify w token (env_or (env w) "JWT_SECRET" "dev-secret") with
        | None =>
            ret (Done (Json 401 (JObj [("message", JStr "Invalid token");
                                       ("requestId", JStr (id c))])))
        | Some p =>
            let decoded := payload_json p in
            let tenantId := tenant_of (js w) (Some decoded) in
            match entitlements_url (js w) (env w) tenantId with
            | Some url =>
                let* resp := fetch w SEntitlements (plain_get url) in
                ret (Next {| rq := rq c; id := id c; user := Some decoded;
                             entitlements := Some (resolved resp) |})
            | None =>
                ret (Next {| rq := rq c; id := id c; user := Some decoded;
                             entitlements :=
                               Some (JObj [("modules", JObj []);
                                           ("features", JObj [])]) |})
            end
        end
  end.

Arguments auth w c _%_float.

(** Lines 52-56: the rate limit middleware on [TOKENS]. *)
Definition rateLimit (c : Ctx) : M Step :=
  fun TOKENS =>
    if (TOKENS <=? 0)%float
    then {| val := Done (Json 429 (JObj [("message", JStr "Too many requests");
                                         ("requestId", JStr (id c))]));
            tokens := TOKENS; calls := [] |}
    else {| val := Next c; tokens := (TOKENS - 1)%float; calls := [] |}.

Arguments rateLimit c _%_float.

(** Line 51: the body of the [setInterval] callback. *)
Definition refill (now : Env) : float := ceiling now.

(** Line 21: [cors] answers a preflight itself and lets every other request
    through. *)
Definition preflight (c : Ctx) : M Step :=
  match method (rq c) with
  | OPTIONS => ret (Done (Lib 204))
  | _ => ret (Next c)
  end.

(** Line 22: [express.json()]. *)
Definition parseBody (c : Ctx) : M Step :=
  match refused (rq c) with
  | Some e => ret (Done (Lib (refusal_status e)))
  | None => ret (Next c)
  end.

(** Lines 416-420. *)
Definition featureEnabled (rt : Runtime) (flag : string) (c : Ctx) : M Step :=
  let flags :=
    js_or (js_and (entitlements c) (get rt "features" (entitlements c)))
          (Some (JObj [])) in
  if is_false (get rt flag flags)
  then ret (Done (Json 403 (JObj [("message", JStr ("Feature disabled: " ++ flag))])))
  else ret (Next c).

(** Lines 421-425. *)
Definition moduleEnabled (rt : Runtime) (moduleKey : string) (c : Ctx) : M Step :=
  let mods :=
    js_or (js_and (entitlements c) (get rt "modules" (entitlements c)))
          (Some (JObj [])) in
  if is_false (get rt moduleKey mods)
  then ret (Done (Json 403 (JObj [("message", JStr ("Module disabled: " ++ moduleKey))])))
  else ret (Next c).

(* ------------------------------------------------------------------ *)
(** ** The route handlers *)

(** [req.params]: the parameters of the route, percent-decoded. *)
Definition Params : Type := list (string * string).

Fixpoint param (ps : Params) (name : string) : string :=
  match ps with
  | [] => "undefined"
  | (n, v) :: ps' => if String.eqb name n then v else param ps' name
  end.

(** The path of a template literal such as [`/staff/${req.params.id}/schedule`]. *)
Definition render (ps : Params) (t : list Seg) : string :=
  cat (map (fun s => match s with
                     | Lit s => "/" ++ s
                     | Par n => "/" ++ param ps n
                     end) t).

Definition url_of (e : Env) (b : RouteBinding) (ps : Params) (c : Ctx) : string :=
  base e (svc b) ++ render ps (dpath b)
  ++ (if with_qs b then "?" ++ qs (rq c) else "").

Definition outreq (rt : Runtime) (e : Env) (b : RouteBinding) (ps : Params)
    (c : Ctx) : OutReq :=
  match opts b with
  | Plain => plain_get (url_of e b ps c)
  | Bare m =>
      {| o_method := m; o_url := url_of e b ps c; o_headers := [];
         o_body := NoBody |}
  | Send m ct uid =>
      {| o_method := m; o_url := url_of e b ps c;
         o_headers :=
           (ct, Some (JStr "application/json"))
           :: (if uid
               then [("x-user-id", js_or (get rt "id" (user c)) (Some (JStr "")))]
               else []);
         o_body := Stringify (body (rq c)) |}
  end.

(** The body shared by every proxy handler:
    [try { r = await fetch(..); j = await r.json(); res.status(r.status).json(j) }
     catch (e) { res.status(502).json({ message: '<label>-service unavailable', requestId: req.id }) }].
    The base addresses are the constants read when the module was loaded. *)
Definition proxy (w : World) (b : RouteBinding) (ps : Params) (c : Ctx) : M Step :=
  let* r := fetch w (SProxy b) (outreq (js w) (boot w) b ps c) in
  match r with
  | Reply s (Some j) => ret (Done (Json s j))
  | _ =>
      ret (Done (Json 502 (JObj [("message", JStr (label b ++ "-service unavailable"));
                                 ("requestId", JStr (id c))])))
  end.

(** Line 58. *)
Definition healthz (c : Ctx) : M Step :=
  ret (Done (Json 200 (JObj [("status", JStr "ok"); ("requestId", JStr (id c))]))).

(** Line 59. *)
Definition readyz (c : Ctx) : M Step :=
  ret (Done (Json 200 (JObj [("status", JStr "ready")]))).

(** Lines 61-91.  The handler reads the base addresses again, from the
    environment of the moment.  Nothing in its [try] can throw (every probe
    catches its own failure), which leaves the outer [catch] without a case. *)
Definition readyzFull (w : World) (c : Ctx) : M Step :=
  let services :=
    [("org", base (env w) ORG ++ "/ready");
     ("forms", base (env w) FORMS ++ "/ready");
     ("submissions", base (env w) SUBMISSIONS ++ "/ready");
     ("discounts", base (env w) DISCOUNTS ++ "/ready");
     ("staff", base (env w) STAFF ++ "/ready")] in
  let* entries :=
    mapM (fun kv =>
            let* r := fetch w SProbe (plain_get (snd kv)) in
            ret (fst kv, match r with
                         | Reply s _ => ok s
                         | Rejected => false
                         end)) services in
  let allOk := forallb snd entries in
  ret (Done (Json (if allOk then 200 else 503)
                  (JObj [("ready", JBool allOk);
                         ("status", JObj (map (fun kv => (fst kv, JBool (snd kv))) entries))]))).

(** Line 94. *)
Definition me (c : Ctx) : M Step :=
  ret (Done (Json 200 (JObj [("user", or_else (user c) JNull);
                             ("entitlements", or_else (entitlements c) JNull);
                             ("requestId", JStr (id c))]))).

(** Lines 489-493: the call is awaited inside [try { .. } catch {}]. *)
Definition meterWrite (w : World) (tenantId : json) (metric : string) : M unit :=
  let* _ :=
    fetch w SMeter
      {| o_method := POST;
         o_url := base (boot w) METER ++ "/usage/increment";
         o_headers := [("content-type", Some (JStr "application/json"))];
         o_body := Stringify (Some (JObj [("tenantId", tenantId);
                                          ("metric", JStr metric);
                                          ("value", JNum 1%float)])) |} in
  ret tt.

(** [res.statusCode] once a handler is through: what it set, else 200. *)
Definition statusCode (s : Step) : Z :=
  match s with
  | Done (Json status _) => status
  | Done (Lib status) => status
  | Done NotFound => 404
  | Next _ => 200
  end.

(** Lines 496-500. *)
Definition wrapWrite (w : World) (handler : Ctx -> M Step) (metric : string)
    (c : Ctx) : M Step :=
  let tenantId := tenant_of (js w) (user c) in
  let* s := handler c in
  let* _ := if statusCode s <? 500 then meterWrite w tenantId metric else ret tt in
  ret s.

Arguments featureEnabled rt flag%_string c _%_float.
Arguments moduleEnabled rt moduleKey%_string c _%_float.
Arguments proxy w b ps%_list c _%_float.
Arguments readyzFull w c _%_float.
Arguments meterWrite w tenantId metric%_string _%_float.
Arguments wrapWrite w handler metric%_string c _%_float.

(* ------------------------------------------------------------------ *)
(** ** The application: layers in registration order *)

Inductive Handler : Type :=
| hRequestId
| hLib (name : string)        (* pinoHttp, helmet: they call next() *)
| hCors
| hJson
| hAuth
| hRateLimit
| hHealthz
| hReadyz
| hReadyzFull
| hMe
| hProxy (b : RouteBinding)
| hModule (moduleKey : string)
| hFeature (flag : string)
| hWrapWrite (h : Handler) (metric : string).

Fixpoint handle (w : World) (h : Handler) (ps : Params) (c : Ctx) : M Step :=
  match h with
  | hRequestId => requestId w c
  | hLib _ => ret (Next c)
  | hCors => preflight c
  | hJson => parseBody c
  | hAuth => auth w c
  | hRateLimit => rateLimit c
  | hHealthz => healthz c
  | hReadyz => readyz c
  | hReadyzFull => readyzFull w c
  | hMe => me c
  | hProxy b => proxy w b ps c
  | hModule k => moduleEnabled (js w) k c
  | hFeature k => featureEnabled (js w) k c
  | hWrapWrite h' metric => wrapWrite w (handle w h' ps) metric c
  end.

Arguments handle w h ps%_list c _%_float.

Inductive Layer : Type :=
| Use (mount : list string) (h : Handler)              (* app.use([mount,] h) *)
| Route (m : Method) (pattern : list Seg) (h : Handler). (* app.get(..), app.post(..), .. *)

Definition handler_of (l : Layer) : Handler :=
  match l with
  | Use _ h => h
  | Route _ _ h => h
  end.

(** ASCII letters in lower case; every other byte as it is. *)
Definition lower_ascii (a : ascii) : ascii :=
  let n := nat_of_ascii a in
  if ((65 <=? n) && (n <=? 90))%nat then ascii_of_nat (n + 32) else a.

Fixpoint lower (s : string) : string :=
  match s with
  | EmptyString => EmptyString
  | String a s' => String (lower_ascii a) (lower s')
  end.

(** A literal of a pattern against a segment of the path: the framework
    compiles its patterns to regular expressions with the [i] flag. *)
Definition same_literal (x s : string) : bool := String.eqb (lower x) (lower s).

(** The pattern against the whole path: the text each parameter takes, as
    it stands in the path. *)
Fixpoint match_path (pattern : list Seg) (ss : list string)
    : option (list (string * string)) :=
  match pattern, ss with
  | [], [] => Some []
  | [], [s] => if String.eqb s "" then Some [] else None
  | Lit x :: pattern', s :: ss' =>
      if same_literal x s then match_path pattern' ss' else None
  | Par n :: pattern', s :: ss' =>
      if String.eqb s "" then None
      else option_map (cons (n, s)) (match_path pattern' ss')
  | _, _ => None
  end.

(** [decode_param] on every parameter. *)
Definition decode_params (rt : Runtime) (raw : list (string * string))
    : option Params :=
  sequence (map (fun kv => option_map (pair (fst kv))
                             (decodeURIComponent rt (snd kv))) raw).

(** What matching a layer against a request gives. *)
Inductive Match : Type :=
| Miss
| Hit (ps : Params)
| Broken.               (* the path matches, a parameter does not decode *)

Definition match_route (rt : Runtime) (pattern : list Seg) (ss : list string)
    : Match :=
  match match_path pattern ss with
  | None => Miss
  | Some raw =>
      match decode_params rt raw with
      | Some ps => Hit ps
      | None => Broken
      end
  end.

Fixpoint match_mount (mount : list string) (ss : list string) : bool :=
  match mount with
  | [] => true
  | x :: mount' =>
      match ss with
      | [] => false
      | s :: ss' => same_literal x s && match_mount mount' ss'
      end
  end.

(** A route of verb [m] handles a request of verb [m']: its own verb, and
    HEAD when it is a GET route (no route of the source is a HEAD route). *)
Definition serves (m m' : Method) : bool :=
  method_eqb m m' || (method_eqb m GET && method_eqb m' HEAD).

(** The framework matches the path of a route, decoding its parameters,
    before it looks at the verb. *)
Definition layer_match (rt : Runtime) (l : Layer) (r : Request) : Match :=
  match l with
  | Use mount _ => if match_mount mount (segs r) then Hit [] else Miss
  | Route m pattern _ =>
      match match_route rt pattern (segs r) with
      | Hit ps => if serves m (method r) then Hit ps else Miss
      | Miss => Miss
      | Broken => Broken
      end
  end.

(** With a parameter that does not decode the framework holds on to the
    error: no route matches from there on, the middleware that follows is
    skipped, and the framework's error handler answers 400. *)
Fixpoint run_stack (w : World) (ls : list Layer) (c : Ctx) : M Response :=
  match ls with
  | [] => ret NotFound
  | l :: ls' =>
      match layer_match (js w) l (rq c) with
      | Miss => run_stack w ls' c
      | Broken => ret (Lib 400)
      | Hit ps =>
          let* s := handle w (handler_of l) ps c in
          match s with
          | Next c' => run_stack w ls' c'
          | Done r => ret r
          end
      end
  end.

Arguments run_stack w ls%_list c _%_float.

(** Paths and templates are written as the source writes them. *)
Fixpoint pieces (s : string) : list string :=
  match s with
  | EmptyString => [""]
  | String a s' =>
      if Ascii.eqb a "/" then "" :: pieces s'
      else match pieces s' with
           | x :: l => String a x :: l
           | [] => [String a ""]
           end
  end.

(** ["/api/org/7"] as segments *)
Definition segments (p : string) : list string := tl (pieces p).

(** ["/api/org/:id"] as a pattern *)
Definition pat (p : string) : list Seg :=
  map (fun x => match x with
                | String ":" n => Par n
                | _ => Lit x
                end) (segments p).

Definition to (s : Service) (template : string) (q : bool) (o : Opts)
    (l : string) : Handler :=
  hProxy {| svc := s; dpath := pat template; with_qs := q; opts := o; label := l |}.

Definition json_post : Opts := Send POST "content-type" false.
Definition json_patch : Opts := Send PATCH "content-type" false.
Definition Json_post : Opts := Send POST "Content-Type" false.

(** Every [app.use] and [app.<verb>] of the source, top to bottom. *)
Definition stack : list Layer :=
  [ Use [] hRequestId                                                      (* 13 *)
  ; Use [] (hLib "pinoHttp")                                               (* 19 *)
  ; Use [] (hLib "helmet")                                                 (* 20 *)
  ; Use [] hCors                                                           (* 21 *)
  ; Use [] hJson                                                           (* 22 *)
  ; Use [] hAuth                                                           (* 24 *)
  ; Use [] hRateLimit                                                      (* 52 *)
  ; Route GET (pat "/healthz") hHealthz                                    (* 58 *)
  ; Route GET (pat "/readyz") hReadyz                                      (* 59 *)
  ; Route GET (pat "/readyz/full") hReadyzFull                             (* 61 *)
  ; Route GET (pat "/api/v1/me") hMe                                       (* 94 *)
  ; Route GET (pat "/api/org/:id") (to ORG "/org/:id" false Plain "org")   (* 115 *)
  ; Route POST (pat "/api/forms") (to FORMS "/forms" false json_post "forms") (* 126 *)
  ; Route GET (pat "/api/forms/:id") (to FORMS "/forms/:id" false Plain "forms") (* 134 *)
  ; Route PATCH (pat "/api/forms/:id") (to FORMS "/forms/:id" false json_patch "forms") (* 142 *)
  ; Route DELETE (pat "/api/forms/:id") (to FORMS "/forms/:id" false (Bare DELETE) "forms") (* 150 *)
  ; Route GET (pat "/api/forms/by-code/:code") (to FORMS "/forms/by-code/:code" false Plain "forms") (* 158 *)
  ; Route POST (pat "/api/franchise/:id/forms") (to FORMS "/franchise/:id/forms" false json_post "forms") (* 166 *)
  ; Route POST (pat "/api/org") (to ORG "/org" false json_post "org")      (* 174 *)
  ; Route GET (pat "/api/brand") (to ORG "/brand" true Plain "org")        (* 184 *)
  ; Route POST (pat "/api/brand") (to ORG "/brand" false json_post "org")  (* 195 *)
  ; Route GET (pat "/api/business") (to ORG "/business" true Plain "org")  (* 205 *)
  ; Route POST (pat "/api/business") (to ORG "/business" false json_post "org") (* 216 *)
  ; Route GET (pat "/api/business/:id") (to ORG "/business/:id" false Plain "org") (* 226 *)
  ; Route PATCH (pat "/api/business/:id") (to ORG "/business/:id" false json_patch "org") (* 236 *)
  ; Route GET (pat "/api/franchise") (to ORG "/franchise" true Plain "org") (* 246 *)
  ; Route POST (pat "/api/franchise") (to ORG "/franchise" false json_post "org") (* 257 *)
  ; Route GET (pat "/api/franchise/:id") (to ORG "/franchise/:id" false Plain "org") (* 267 *)
  ; Route PATCH (pat "/api/franchise/:id") (to ORG "/franchise/:id" false json_patch "org") (* 277 *)
  ; Route POST (pat "/api/submissions")
      (to SUBMISSIONS "/submissions" false (Send POST "content-type" true) "submissions") (* 288 *)
  ; Route GET (pat "/api/submissions/by-business/:businessId")
      (to SUBMISSIONS "/submissions/by-business/:businessId" true Plain "submissions") (* 298 *)
  ; Route GET (pat "/api/discounts/:accessKey")
      (to DISCOUNTS "/discounts/:accessKey" false Plain "discounts")       (* 310 *)
  ; Route POST (pat "/api/discounts/mark-used")
      (to DISCOUNTS "/discounts/mark-used" false json_post "discounts")    (* 320 *)
  ; Route POST (pat "/api/staff") (to STAFF "/staff" false json_post "staff") (* 331 *)
  ; Route GET (pat "/api/staff") (to STAFF "/staff" true Plain "staff")    (* 341 *)
  ; Route PATCH (pat "/api/staff/:id") (to STAFF "/staff/:id" false json_patch "staff") (* 352 *)
  ; Route DELETE (pat "/api/staff/:id") (to STAFF "/staff/:id" false (Bare DELETE) "staff") (* 362 *)
  ; Route POST (pat "/api/staff/:id/schedule")
      (to STAFF "/staff/:id/schedule" false json_post "staff")             (* 372 *)
  ; Route GET (pat "/api/staff/:id/schedule")
      (to STAFF "/staff/:id/schedule" false Plain "staff")                 (* 382 *)
  ; Route GET (pat "/api/notifications/rules")
      (to NOTIFY "/rules" true Plain "notifications")                      (* 393 *)
  ; Route GET (pat "/api/reports/live/:businessId")
      (to REPORT "/reports/live/:businessId" false Plain "reporting")      (* 405 *)
  ; Use (segments "/api/forms") (hModule "forms")                          (* 428 *)
  ; Use (segments "/api/submissions") (hModule "submissions")              (* 429 *)
  ; Use (segments "/api/discounts") (hModule "discounts")                  (* 430 *)
  ; Use (segments "/api/staff") (hModule "staff")                          (* 431 *)
  ; Use (segments "/api/reports") (hFeature "reports")                     (* 432 *)
  ; Use (segments "/api/i18n") (hFeature "i18n")                           (* 433 *)
  ; Use (segments "/api/webhooks") (hFeature "integrationHub")             (* 434 *)
  ; Use (segments "/api/schedules") (hFeature "exportScheduler")           (* 435 *)
  ; Route GET (pat "/api/i18n/:namespace")
      (to I18N "/i18n/:namespace" true Plain "translation")                (* 438 *)
  ; Route GET (pat "/api/flags/:tenantId")
      (to FLAGS "/flags/:tenantId" false Plain "feature-flags")            (* 450 *)
  ; Route GET (pat "/api/api-keys/:tenantId")
      (to API_PROG "/api-keys/:tenantId" false Plain "api-program")        (* 461 *)
  ; Route GET (pat "/api/search") (to SEARCH "/search" true Plain "search") (* 470 *)
  ; Route GET (pat "/api/usage/:tenantId")
      (to METER "/usage/:tenantId" false Plain "metering")                 (* 480 *)
  ; Route GET (pat "/api/webhooks") (to INTEG "/webhooks" true Plain "integration-hub") (* 503 *)
  ; Route GET (pat "/api/schedules") (to EXPORT "/schedules" true Plain "export-scheduler") (* 513 *)
  ; Route POST (pat "/api/ai-ml/analyze/sentiment")
      (to AI_ML "/analyze/sentiment" false Json_post "ai-ml")              (* 524 *)
  ; Route POST (pat "/api/ai-ml/analyze/topics")
      (to AI_ML "/analyze/topics" false Json_post "ai-ml")                 (* 536 *)
  ; Route GET (pat "/api/ai-ml/insights/:tenantId")
      (to AI_ML "/insights/:tenantId" true Plain "ai-ml")                  (* 548 *)
  ; Route POST (pat "/api/audit/log") (to AUDIT "/audit/log" false Json_post "audit") (* 559 *)
  ; Route GET (pat "/api/audit/:tenantId") (to AUDIT "/audit/:tenantId" true Plain "audit") (* 571 *)
  ; Route GET (pat "/api/tenants/:tenantId")
      (to TENANT_ISOLATION "/tenants/:tenantId" false Plain "tenant-isolation") (* 582 *)
  ; Route POST (pat "/api/tenant-isolation/validate-access")
      (to TENANT_ISOLATION "/validate-access" false Json_post "tenant-isolation") (* 590 *)
  ].

(** One request through the application, starting from [TOKENS = t]. *)
Definition serve (w : World) (r : Request) : M Response :=
  run_stack w stack (init_ctx r).

Arguments serve w r _%_float.

(** Line 49: [let TOKENS = Number(process.env.RATE_TOKENS || 200)]. *)
Definition TOKENS0 (boot_env : Env) : float := ceiling boot_env.

(** The life of the process: requests arrive, the interval timer fires. *)
Inductive Event : Type :=
| Arrive (w : World) (r : Request)
| Tick (now : Env).      (* the setInterval callback runs *)

Fixpoint run (t : float) (evs : list Event) : float * list Response :=
  match evs with
  | [] => (t, [])
  | Arrive w r :: evs' =>
      let res := serve w r t in
      let rest := run (tokens res) evs' in
      (fst rest, val res :: snd rest)
  | Tick now :: evs' => run (refill now) evs'
  end.

(* ------------------------------------------------------------------ *)
(** ** Notions the statements use *)

(** The correlation id of a request: the header, else a fresh one. *)
Definition request_id (w : World) (r : Request) : string :=
  match h_request_id r with
  | Some s => if String.eqb s "" then uuid w else s
  | None => uuid w
  end.

(** The request once the first middleware has run. *)
Definition identified (w : World) (r : Request) : Ctx :=
  {| rq := r; id := request_id w r; user := None; entitlements := None |}.

(** [process.env.JWT_SECRET || 'dev-secret'] *)
Definition secret (w : World) : string := env_or (env w) "JWT_SECRET" "dev-secret".

Definition authorization (r : Request) : string :=
  match h_authorization r with
  | Some s => s
  | None => ""
  end.

(** The Authorization header is [Bearer <token>] with a token in it. *)
Definition carries_bearer (r : Request) (token : string) : Prop :=
  authorization r = "Bearer " ++ token /\ token <> "".

(** A handler answered [resp]; the counter and the network were left alone. *)
Definition answered (resp : Response) (t : float) : Res Response :=
  {| val := resp; tokens := t; calls := [] |}.

(** The layers up to and including the auth middleware. *)
Definition through_auth : list Layer := firstn 6 stack.

(** The layers behind the auth middleware, the rate limiter first. *)
Definition behind_auth : list Layer := skipn 6 stack.

(** The layers behind the rate limiter: routes and guards. *)
Definition behind_limiter : list Layer := skipn 7 stack.

(* ------------------------------------------------------------------ *)
(** ** Entitlement resolution *)

(** The entitlement call threw, was answered with a non-success status, or
    was answered with a body that does not decode. *)
Definition entitlement_failure (fr : FetchResult) : Prop :=
  fr = Rejected
  \/ (exists s d, fr = Reply s d /\ (s < 200 \/ 299 < s))
  \/ (exists s, fr = Reply s None).

(* ------------------------------------------------------------------ *)
(** ** What a request can end in *)

(** Handlers as the application registers them behind its first middleware:
    none sets [req.id], none is wrapped for metering. *)
Definition plain (h : Handler) : bool :=
  match h with
  | hRequestId => false
  | hWrapWrite _ _ => false
  | _ => true
  end.

Definition plain_layers (ls : list Layer) : bool :=
  forallb (fun l => plain (handler_of l)) ls.

Definition transport_failure (fr : FetchResult) : Prop :=
  fr = Rejected \/ exists s, fr = Reply s None.

Definition from (site : Site) (cs : list Call) : Prop :=
  Forall (fun c => fst c = site) cs.

(** The answers the layers behind the first middleware give to a request
    with correlation id [ident], each with the calls its handler issued. *)
Inductive Outcome (w : World) (ident : string) : list Call -> Response -> Prop :=
| by_library (s : Z) :
    In s [204; 400; 413; 415] ->
    Outcome w ident [] (Lib s)
| unauthenticated (m : string) :
    In m ["Missing token"; "Invalid token"] ->
    Outcome w ident []
      (Json 401 (JObj [("message", JStr m); ("requestId", JStr ident)]))
| rate_limited :
    Outcome w ident []
      (Json 429 (JObj [("message", JStr "Too many requests");
                       ("requestId", JStr ident)]))
| denied (m : string) :
    Outcome w ident [] (Json 403 (JObj [("message", JStr m)]))
| local (body : json) :
    Outcome w ident [] (Json 200 body)
| ready (cs : list Call) (status : list (string * json)) :
    from SProbe cs ->
    Outcome w ident cs
      (Json 200 (JObj [("ready", JBool true); ("status", JObj status)]))
| unready (cs : list Call) (status : list (string * json)) :
    from SProbe cs ->
    Outcome w ident cs
      (Json 503 (JObj [("ready", JBool false); ("status", JObj status)]))
| relayed (b : RouteBinding) (o : OutReq) (s : Z) (j : json) :
    net w o = Reply s (Some j) ->
    Outcome w ident [(SProxy b, o)] (Json s j)
| unavailable (b : RouteBinding) (o : OutReq) :
    transport_failure (net w o) ->
    Outcome w ident [(SProxy b, o)]
      (Json 502 (JObj [("message", JStr (label b ++ "-service unavailable"));
                       ("requestId", JStr ident)]))
| not_found :
    Outcome w ident [] NotFound.

(** The handler of line 115. *)
Definition org_by_id : RouteBinding :=
  {| svc := ORG; dpath := [Lit "org"; Par "id"]; with_qs := false;
     opts := Plain; label := "org" |}.

(* ------------------------------------------------------------------ *)
(** ** Admission *)

(** The request is no preflight and [express.json] passes it on: it reaches
    the auth middleware. *)
Definition reaches_auth (r : Request) : bool :=
  negb (method_eqb (method r) OPTIONS)
  && match refused r with
     | None => true
     | Some _ => false
     end.

(** The request gets past the auth middleware (which never looks at
    [TOKENS]): it reaches the rate limiter. *)
Definition passes_auth (w : World) (r : Request) : bool :=
  reaches_auth r
  && match val (auth w (identified w r) 0%float) with
     | Next _ => true
     | Done _ => false
     end.

(** The request is admitted: it reaches the rate limiter, which does not
    find [TOKENS <= 0]. *)
Definition admitted (w : World) (r : Request) (t : float) : bool :=
  passes_auth w r && negb (t <=? 0)%float.

(** How many requests of [evs] are admitted, starting from [TOKENS = t]. *)
Fixpoint admissions (t : float) (evs : list Event) : nat :=
  match evs with
  | [] => 0
  | Arrive w r :: evs' =>
      ((if admitted w r t then 1 else 0) + admissions (tokens (serve w r t)) evs')%nat
  | Tick now :: evs' => admissions (refill now) evs'
  end.

(** Counting down from [x] by one reaches zero in exactly [n] steps, no
    value on the way being zero or below: what a whole number [n] does, and
    what 1.5, -1 and NaN do not do for any [n]. *)
Fixpoint counts_down (x : float) (n : nat) : bool :=
  match n with
  | O => (x =? 0)%float
  | S k => negb (x <=? 0)%float && counts_down (x - 1)%float k
  end.

(** The whole number [n] as a double. *)
Definition whole (n : nat) : float := of_uint63 (Uint63.of_Z (Z.of_nat n)).

(** No refill happens during [evs]. *)
Definition tick_free (evs : list Event) : bool :=
  forallb (fun e => match e with Tick _ => false | Arrive _ _ => true end) evs.

(** Handlers that leave [TOKENS] alone. *)
Fixpoint counter_free (h : Handler) : bool :=
  match h with
  | hRateLimit => false
  | hWrapWrite h' _ => counter_free h'
  | _ => true
  end.

(* ------------------------------------------------------------------ *)
(** ** Metering *)

Definition wrapped (h : Handler) : bool :=
  match h with
  | hWrapWrite _ _ => true
  | _ => false
  end.

(** The call [meterWrite] makes: POST [METER_BASE/usage/increment]. *)
Definition metering_notification (w : World) (o : OutReq) : Prop :=
  o_method o = POST /\ o_url o = base (boot w) METER ++ "/usage/increment".

(** The proxy handlers among the layers. *)
Definition bindings (ls : list Layer) : list RouteBinding :=
  flat_map (fun l => match handler_of l with
                     | hProxy b => [b]
                     | _ => []
                     end) ls.

(** What each site sends. *)
Definition call_shape (w : World) (bs : list RouteBinding) (c : Call) : Prop :=
  match fst c with
  | SEntitlements => o_method (snd c) = GET
  | SProbe => o_method (snd c) = GET
  | SProxy b => In b bs /\ exists ps ctx, snd c = outreq (js w) (boot w) b ps ctx
  | SMeter => False
  end.

Definition chars (s : string) : list ascii := list_ascii_of_string s.

(** Two texts differ at a position both have. *)
Fixpoint differ (l1 l2 : list ascii) : bool :=
  match l1, l2 with
  | a :: l1', b :: l2' => if Ascii.eqb a b then differ l1' l2' else true
  | _, _ => false
  end.

(** The verb a handler's call goes out with. *)
Definition verb (o : Opts) : Method :=
  match o with
  | Plain => GET
  | Bare m => m
  | Send m _ _ => m
  end.

(** A handler that cannot produce the metering call: it does not POST, or
    its address ends in a literal segment that ends differently from
    "/usage/increment". *)
Definition apart_from_metering (b : RouteBinding) : bool :=
  negb (method_eqb (verb (opts b)) POST)
  || (negb (with_qs b)
      && match rev (dpath b) with
         | Lit s :: _ => differ (rev (chars ("/" ++ s))) (rev (chars "/usage/increment"))
         | _ => false
         end).

(* ------------------------------------------------------------------ *)
(** ** A deployment to run things on *)

Definition no_env : Env := {| getenv := fun _ => None; RATE_TOKENS := None |}.

Definition hex (a : ascii) : option N :=
  let n := N_of_ascii a in
  if ((48 <=? n) && (n <=? 57))%N then Some (n - 48)%N
  else if ((65 <=? n) && (n <=? 70))%N then Some (n - 55)%N
  else if ((97 <=? n) && (n <=? 102))%N then Some (n - 87)%N
  else None.

(** Percent-decoding of ASCII: [%41] is "A"; an escape that is cut short or
    has a digit that is none is an error.  (Escapes from [%80] on, which
    spell the bytes of other characters, do not occur in the examples and
    are refused.) *)
Fixpoint percent_decode (s : string) : option string :=
  match s with
  | EmptyString => Some EmptyString
  | String "%" (String a (String b s')) =>
      match hex a, hex b with
      | Some x, Some y =>
          if (16 * x + y <? 128)%N
          then option_map (String (ascii_of_N (16 * x + y))) (percent_decode s')
          else None
      | _, _ => None
      end
  | String "%" _ => None
  | String a s' => option_map (String a) (percent_decode s')
  end.

(** The value of a double that is a whole number. *)
Definition whole_value (x : float) : option Z :=
  match Prim2SF x with
  | S754_zero _ => Some 0
  | S754_finite s m e =>
      let sign := if s then -1 else 1 in
      if 0 <=? e then Some (sign * (Zpos m * 2 ^ e))
      else if Zpos m mod 2 ^ (- e) =? 0 then Some (sign * (Zpos m / 2 ^ (- e)))
      else None
  | _ => None
  end.

(** A runtime for texts in ASCII, one UTF-16 unit per character, and for
    whole numbers (the only numbers of the examples), which print in
    decimal. *)
Definition ascii_runtime : Runtime :=
  {| number_text := fun x =>
       match whole_value x with
       | Some z => NilZero.string_of_int (Z.to_int z)
       | None => "NaN"
       end;
     code_unit := fun s i =>
       if (i <? N.of_nat (String.length s))%N
       then Some (substring (N.to_nat i) 1 s)
       else None;
     code_units := fun s => whole (String.length s);
     decodeURIComponent := percent_decode |}.

(** Nothing configured.  The token "good" verifies to a principal of the
    organisation acme, the token "solo" to a bare string.  The entitlement
    service knows acme, with the forms module and the i18n feature switched
    off.  forms-service creates forms; org, forms, submissions and discounts
    answer their readiness probe; everything else is unreachable. *)
Definition demo_net (o : OutReq) : FetchResult :=
  let u := o_url o in
  if String.eqb u "http://localhost:7002/entitlements/acme"
  then Reply 200 (Some (JObj [("modules", JObj [("forms", JBool false)]);
                              ("features", JObj [("i18n", JBool false)])]))
  else if String.eqb u "http://localhost:7004/forms"
  then Reply 201 (Some (JObj [("id", JStr "abc")]))
  else if includes u ["http://localhost:7003/ready"; "http://localhost:7004/ready";
                      "http://localhost:3005/ready"; "http://localhost:3006/ready"]
  then Reply 200 (Some (JObj []))
  else Rejected.

Definition demo_jwt (token secret_key : string) : option Payload :=
  if String.eqb secret_key "dev-secret"
  then if String.eqb token "good"
       then Some (PObj [("id", JStr "u1"); ("scopes", JObj [("orgId", JStr "acme")])])
       else if String.eqb token "solo" then Some (PStr "solo")
       else if String.eqb token "odd"
       then Some (PObj [("scopes", JObj [("orgId", JObj [("toString", JNull)])])])
       else None
  else None.

Definition demo : World :=
  {| js := ascii_runtime; boot := no_env; env := no_env; uuid := "generated";
     jwt_verify := demo_jwt; net := demo_net |}.

Definition request (m : Method) (p : string) (authz : option string) : Request :=
  {| method := m; segs := segments p; h_request_id := Some "req-1";
     h_authorization := authz; qs := ""; refused := None;
     body := Some (JObj []) |}.

(** A request whose body is no JSON text. *)
Definition garbled (m : Method) (p : string) (authz : option string) : Request :=
  {| method := m; segs := segments p; h_request_id := Some "req-1";
     h_authorization := authz; qs := ""; refused := Some BadRequest;
     body := None |}.

(** A ceiling of two requests per interval. *)
Definition small_env : Env :=
  {| getenv := fun _ => None; RATE_TOKENS := Some 2%float |}.

(** RATE_TOKENS=1.5 *)
Definition fractional_env : Env :=
  {| getenv := fun _ => None; RATE_TOKENS := Some 1.5%float |}.

(** RATE_TOKENS=many *)
Definition unreadable_env : Env :=
  {| getenv := fun _ => None; RATE_TOKENS := Some nan |}.

(** The same deployment with ENTITLEMENTS_URL set. *)
Definition configured_env : Env :=
  {| getenv := fun name =>
       if String.eqb name "ENTITLEMENTS_URL"
       then Some "http://entitlements.internal/entitlements/"
       else None;
     RATE_TOKENS := None |}.

Definition configured : World :=
  {| js := ascii_runtime; boot := configured_env; env := configured_env;
     uuid := "generated"; jwt_verify := demo_jwt; net := demo_net |}.

(* ------------------------------------------------------------------ *)
(** ** Routing, looked at from the request *)

(** The first layer a request matches, with the parameters it binds and the
    layers that follow it. *)
Inductive Found : Type :=
| Nowhere                                              (* no layer matches *)
| Undecodable                                          (* a parameter does not decode *)
| At (h : Handler) (ps : Params) (rest : list Layer).

Fixpoint first_hit (rt : Runtime) (ls : list Layer) (r : Request) : Found :=
  match ls with
  | [] => Nowhere
  | l :: ls' =>
      match layer_match rt l r with
      | Hit ps => At (handler_of l) ps ls'
      | Broken => Undecodable
      | Miss => first_hit rt ls' r
      end
  end.

(** The layer starts, as a mount path or as a pattern, with a literal
    segment that is, in lower case, one of [roots]. *)
Definition rooted (roots : list string) (l : Layer) : bool :=
  match l with
  | Use (x :: _) _ => includes (lower x) roots
  | Route _ (Lit x :: _) _ => includes (lower x) roots
  | _ => false
  end.

(** A proxy handler sits on a route of the verb it calls with, and that
    verb is not HEAD. *)
Definition verb_ok (l : Layer) : bool :=
  match l with
  | Route m _ (hProxy b) => method_eqb m (verb (opts b)) && negb (method_eqb m HEAD)
  | Use _ (hProxy _) => false
  | _ => true
  end.

(** The verb a route handler sees a request under: HEAD is served as GET. *)
Definition served_as (m : Method) : Method :=
  match m with
  | HEAD => GET
  | _ => m
  end.

(** Layers that issue no entitlement call. *)
Definition auth_free (l : Layer) : bool :=
  match handler_of l with
  | hAuth => false
  | _ => true
  end.

(** The address of the entitlement call for a verified principal; [None]
    when the tenant does not turn into a text. *)
Definition entitlement_address (w : World) (p : Payload) : option string :=
  entitlements_url (js w) (env w) (tenant_of (js w) (Some (payload_json p))).

(** The entitlement call of a verified principal: one GET, or none when
    there is no address to call. *)
Definition entitlement_calls (w : World) (p : Payload) : list Call :=
  match entitlement_address w p with
  | Some url =>
      [(SEntitlements,
        {| o_method := GET; o_url := url; o_headers := []; o_body := NoBody |})]
  | None => []
  end.

(** What the call brings: the body of a success reply that decodes, and
    the empty set in every other case. *)
Definition entitlements_for (w : World) (p : Payload) : json :=
  match entitlement_address w p with
  | Some url =>
      match net w {| o_method := GET; o_url := url; o_headers := [];
                     o_body := NoBody |} with
      | Reply s (Some j) =>
          if (200 <=? s) && (s <=? 299) then j
          else JObj [("modules", JObj []); ("features", JObj [])]
      | _ => JObj [("modules", JObj []); ("features", JObj [])]
      end
  | None => JObj [("modules", JObj []); ("features", JObj [])]
  end.

(** [req.entitlements = e] *)
Definition with_entitlements (c : Ctx) (e : value) : Ctx :=
  {| rq := rq c; id := id c; user := user c; entitlements := e |}.

(** The services /readyz/full probes, in the order of its table. *)
Definition probed : list (string * Service) :=
  [("org", ORG); ("forms", FORMS); ("submissions", SUBMISSIONS);
   ("discounts", DISCOUNTS); ("staff", STAFF)].

(** The probe of a service: a GET of [<base>/ready]. *)
Definition probe (w : World) (s : Service) : OutReq :=
  {| o_method := GET; o_url := base (env w) s ++ "/ready"; o_headers := [];
     o_body := NoBody |}.

(** The probe of a service came back with a success status. *)
Definition probe_ok (w : World) (s : Service) : bool :=
  match net w (probe w s) with
  | Reply st _ => (200 <=? st) && (st <=? 299)
  | Rejected => false
  end.

(** The request [meterWrite] sends. *)
Definition metering_call (w : World) (tenantId : json) (metric : string) : OutReq :=
  {| o_method := POST;
     o_url := base (boot w) METER ++ "/usage/increment";
     o_headers := [("content-type", Some (JStr "application/json"))];
     o_body := Stringify (Some (JObj [("tenantId", tenantId);
                                      ("metric", JStr metric);
                                      ("value", JNum 1%float)])) |}.

(** The body and the headers a proxy route sends fit its verb: a GET route
    calls plainly, a DELETE route with the verb alone, a POST or PATCH route
    with a JSON body under its own verb. *)
Definition body_ok (l : Layer) : bool :=
  match l with
  | Route m _ (hProxy b) =>
      match opts b with
      | Plain => method_eqb m GET
      | Bare m' => method_eqb m DELETE && method_eqb m' DELETE
      | Send m' _ _ =>
          method_eqb m m' && (method_eqb m POST || method_eqb m PATCH)
      end
  | _ => true
  end.

Definition is_par (n : string) (s : Seg) : bool :=
  match s with
  | Par n' => String.eqb n n'
  | Lit _ => false
  end.

(** Every parameter of the downstream template is one of the pattern. *)
Definition params_bound (l : Layer) : bool :=
  match l with
  | Route _ pattern (hProxy b) =>
      forallb (fun s => match s with
                        | Par n => existsb (is_par n) pattern
                        | Lit _ => true
                        end) (dpath b)
  | _ => true
  end.

Definition service_eqb (a b : Service) : bool :=
  match a, b with
  | ORG, ORG | FORMS, FORMS | SUBMISSIONS, SUBMISSIONS | DISCOUNTS, DISCOUNTS
  | STAFF, STAFF | NOTIFY, NOTIFY | REPORT, REPORT | I18N, I18N | FLAGS, FLAGS
  | API_PROG, API_PROG | SEARCH, SEARCH | METER, METER | INTEG, INTEG
  | EXPORT, EXPORT | AI_ML, AI_ML | AUDIT, AUDIT
  | TENANT_ISOLATION, TENANT_ISOLATION => true
  | _, _ => false
  end.

(** Handlers calling the same service name it alike in their 502 message. *)
Definition labels_agree (bs : list RouteBinding) : bool :=
  forallb (fun b =>
             forallb (fun b' =>
                        negb (service_eqb (svc b) (svc b'))
                        || String.eqb (label b) (label b')) bs) bs.


(** The message that goes with the status of an error the gateway raises
    itself. *)
Definition message_of (status : Z) (m : string) : Prop :=
  (status = 401 /\ (m = "Missing token" \/ m = "Invalid token"))
  \/ (status = 429 /\ m = "Too many requests")
  \/ (status = 502 /\ exists service, m = service ++ "-service unavailable").

(** The parameter [n] is bound by the match. *)
Definition binds (n : string) (raw : list (string * string)) : bool :=
  existsb (fun kv => String.eqb n (fst kv)) raw.
(* ------------------------------------------------------------------ *)
(** * Proofs *)

(** ** Strings *)

Lemma substring_all (s : string) : substring 0 (String.length s) s = s.
Proof.
  induction s as [|a s IH]; simpl; [reflexivity | now rewrite IH].
Qed.

Lemma prefix_split (p a : string) :
  prefix p a = true ->
  a = p ++ substring (String.length p) (String.length a - String.length p) a.
Proof.
  revert a; induction p as [|c p IH]; intros a H.
  - simpl. rewrite Nat.sub_0_r. symmetry; apply substring_all.
  - destruct a as [|c' a]; simpl in H; [discriminate|].
    destruct (ascii_dec c c') as [->|]; [|discriminate].
    simpl. f_equal. now apply IH.
Qed.

Lemma bearer_spec (a token : string) :
  bearer a = Some token <-> a = "Bearer " ++ token.
Proof.
  unfold bearer; split.
  - destruct (prefix "Bearer " a) eqn:E; [|discriminate].
    intros [= <-]. apply (prefix_split _ _ E).
  - intros ->. simpl.
    replace (prefix "" token) with true by (destruct token; reflexivity).
    rewrite Nat.sub_0_r, substring_all. reflexivity.
Qed.

Lemma includes_In (s : string) (l : list string) :
  includes s l = true <-> In s l.
Proof.
  unfold includes. rewrite existsb_exists. split.
  - intros (x & Hx & E). apply String.eqb_eq in E. now subst.
  - intros H. exists s. split; [assumption | apply String.eqb_refl].
Qed.

Lemma includes_not_In (s : string) (l : list string) :
  ~ In s l -> includes s l = false.
Proof.
  intros H. destruct (includes s l) eqn:E; [|reflexivity].
  now apply includes_In in E.
Qed.

(* ------------------------------------------------------------------ *)
(** ** One handler, then the rest of the walk *)

Lemma res_eta {A : Type} (x : Res A) :
  {| val := val x; tokens := tokens x; calls := ([] ++ calls x)%list |} = x.
Proof. reflexivity. Qed.

Lemma bind_next {B : Type} (m : M Step) (k : Ctx -> M B) (d : Response -> M B)
    (t t' : float) (c' : Ctx) (cs : list Call) :
  m t = {| val := Next c'; tokens := t'; calls := cs |} ->
  (let* s := m in
   match s with
   | Next c => k c
   | Done resp => d resp
   end) t =
  {| val := val (k c' t'); tokens := tokens (k c' t');
     calls := (cs ++ calls (k c' t'))%list |}.
Proof. intros H. unfold bind. rewrite H. reflexivity. Qed.

Lemma bind_done (m : M Step) (k : Ctx -> M Response)
    (t t' : float) (resp : Response) (cs : list Call) :
  m t = {| val := Done resp; tokens := t'; calls := cs |} ->
  (let* s := m in
   match s with
   | Next c => k c
   | Done resp => ret resp
   end) t =
  {| val := resp; tokens := t'; calls := cs |}.
Proof.
  intros H. unfold bind. rewrite H. cbn [val tokens calls ret].
  now rewrite app_nil_r.
Qed.

(* ------------------------------------------------------------------ *)
(** ** The auth middleware, case by case *)

(** The six ways through [auth]: open path, no bearer prefix, empty token,
    token refused, token verified with an address to call, token verified
    with no address to call. *)
Ltac auth_cases :=
  unfold auth;
  destruct (includes _ _);
  [ | destruct (bearer _) as [?token|];
      [ destruct (String.eqb _ "");
        [ | destruct (jwt_verify _ _ _) as [?p|];
            [ destruct (entitlements_url _ _ _) as [?url|] | ] ] | ] ].

Section Auth.
Variables (w : World) (c : Ctx) (t : float).

Lemma auth_open :
  In (path (rq c)) openPaths -> auth w c t = ret (Next c) t.
Proof.
  intros H. apply includes_In in H. unfold auth. now rewrite H.
Qed.

Lemma auth_missing :
  ~ In (path (rq c)) openPaths ->
  (forall token, ~ carries_bearer (rq c) token) ->
  auth w c t =
  ret (Done (Json 401 (JObj [("message", JStr "Missing token");
                             ("requestId", JStr (id c))]))) t.
Proof.
  intros Hp Hno. unfold auth. rewrite (includes_not_In _ _ Hp).
  fold (authorization (rq c)).
  destruct (bearer (authorization (rq c))) as [token|] eqn:E; [|reflexivity].
  destruct (String.eqb token "") eqn:E0; [reflexivity|].
  exfalso. apply (Hno token). split.
  - now apply bearer_spec.
  - now apply String.eqb_neq.
Qed.

Lemma auth_invalid (token : string) :
  ~ In (path (rq c)) openPaths ->
  carries_bearer (rq c) token ->
  jwt_verify w token (secret w) = None ->
  auth w c t =
  ret (Done (Json 401 (JObj [("message", JStr "Invalid token");
                             ("requestId", JStr (id c))]))) t.
Proof.
  intros Hp [Hh Hne] Hj. unfold auth. rewrite (includes_not_In _ _ Hp).
  fold (authorization (rq c)). apply bearer_spec in Hh. rewrite Hh.
  apply String.eqb_neq in Hne. rewrite Hne.
  fold (secret w). now rewrite Hj.
Qed.

Lemma auth_verified (token : string) (p : Payload) :
  ~ In (path (rq c)) openPaths ->
  carries_bearer (rq c) token ->
  jwt_verify w token (secret w) = Some p ->
  auth w c t =
  match entitlements_url (js w) (env w) (tenant_of (js w) (Some (payload_json p))) with
  | Some url =>
      (let* resp := fetch w SEntitlements (plain_get url) in
       ret (Next {| rq := rq c; id := id c; user := Some (payload_json p);
                    entitlements := Some (resolved resp) |})) t
  | None =>
      ret (Next {| rq := rq c; id := id c; user := Some (payload_json p);
                   entitlements :=
                     Some (JObj [("modules", JObj []); ("features", JObj [])]) |}) t
  end.
Proof.
  intros Hp [Hh Hne] Hj. unfold auth. rewrite (includes_not_In _ _ Hp).
  fold (authorization (rq c)). apply bearer_spec in Hh. rewrite Hh.
  apply String.eqb_neq in Hne. rewrite Hne.
  fold (secret w). rewrite Hj.
  destruct (entitlements_url _ _ _); reflexivity.
Qed.
End Auth.

(** Serving starts with the first middleware, then the third-party layers,
    then the auth middleware. *)
Lemma through_auth_layers :
  through_auth =
  [Use [] hRequestId; Use [] (hLib "pinoHttp"); Use [] (hLib "helmet");
   Use [] hCors; Use [] hJson; Use [] hAuth].
Proof. reflexivity. Qed.

Lemma stack_split : stack = (through_auth ++ behind_auth)%list.
Proof. symmetry. apply firstn_skipn. Qed.

(** The walk up to the auth middleware: [cors] answers a preflight,
    [express.json] may refuse the body, and what is left reaches [auth]. *)
Lemma run_to_auth (w : World) (r : Request) (later : list Layer) (t : float) :
  run_stack w (through_auth ++ later) (init_ctx r) t =
  match method r with
  | OPTIONS => answered (Lib 204) t
  | _ =>
      match refused r with
      | Some e => answered (Lib (refusal_status e)) t
      | None =>
          (let* s := auth w (identified w r) in
           match s with
           | Next c' => run_stack w later c'
           | Done resp => ret resp
           end) t
      end
  end.
Proof.
  rewrite through_auth_layers.
  cbn [app run_stack layer_match match_mount handler_of handle].
  destruct r as [m ss hid ha q rf bd]. cbn [method refused].
  destruct m; try reflexivity; destruct rf; reflexivity.
Qed.

Lemma reaches_auth_spec (r : Request) :
  reaches_auth r = true <-> method r <> OPTIONS /\ refused r = None.
Proof.
  unfold reaches_auth. rewrite andb_true_iff, negb_true_iff. split.
  - intros [Hm Hr]. split.
    + intros E. rewrite E in Hm. discriminate Hm.
    + destruct (refused r); [discriminate Hr | reflexivity].
  - intros [Hm Hr]. rewrite Hr. split; [|reflexivity].
    destruct (method r); try reflexivity. now elim Hm.
Qed.

Lemma run_through_auth (w : World) (r : Request) (later : list Layer) (t : float) :
  reaches_auth r = true ->
  run_stack w (through_auth ++ later) (init_ctx r) t =
  (let* s := auth w (identified w r) in
   match s with
   | Next c' => run_stack w later c'
   | Done resp => ret resp
   end) t.
Proof.
  intros H. apply reaches_auth_spec in H as [Hm Hr].
  rewrite run_to_auth, Hr. destruct (method r); try reflexivity. now elim Hm.
Qed.

Lemma serve_to_auth (w : World) (r : Request) (t : float) :
  serve w r t =
  match method r with
  | OPTIONS => answered (Lib 204) t
  | _ =>
      match refused r with
      | Some e => answered (Lib (refusal_status e)) t
      | None =>
          (let* s := auth w (identified w r) in
           match s with
           | Next c' => run_stack w behind_auth c'
           | Done resp => ret resp
           end) t
      end
  end.
Proof. unfold serve. rewrite stack_split. apply run_to_auth. Qed.

Lemma serve_through_auth (w : World) (r : Request) (t : float) :
  reaches_auth r = true ->
  serve w r t =
  (let* s := auth w (identified w r) in
   match s with
   | Next c' => run_stack w behind_auth c'
   | Done resp => ret resp
   end) t.
Proof. unfold serve. rewrite stack_split. apply run_through_auth. Qed.

(** C7, as amended.  A request that is no OPTIONS preflight, whose body
    [express.json] does not refuse, and whose path is not one of the three
    open paths, is answered 401 [{message: "Missing token", requestId}] when
    its Authorization header carries no bearer token, and 401
    [{message: "Invalid token", requestId}] when the token it carries fails
    verification against the signing secret.  In both cases the answer is
    the same whatever layers follow the auth middleware, the admission
    counter keeps its value and no call leaves the process. *)
Theorem C7_unauthenticated_is_401 (w : World) (r : Request) (t : float)
    (Hverb : method r <> OPTIONS)
    (Hbody : refused r = None)
    (Hprotected : ~ In (path r) openPaths) :
  ((forall token, ~ carries_bearer r token) ->
   (forall later,
       run_stack w (through_auth ++ later) (init_ctx r) t =
       {| val := Json 401 (JObj [("message", JStr "Missing token");
                                 ("requestId", JStr (request_id w r))]);
          tokens := t; calls := [] |})
   /\ serve w r t =
      {| val := Json 401 (JObj [("message", JStr "Missing token");
                                ("requestId", JStr (request_id w r))]);
         tokens := t; calls := [] |})
  /\
  (forall token,
      carries_bearer r token ->
      jwt_verify w token (secret w) = None ->
      (forall later,
          run_stack w (through_auth ++ later) (init_ctx r) t =
          {| val := Json 401 (JObj [("message", JStr "Invalid token");
                                    ("requestId", JStr (request_id w r))]);
             tokens := t; calls := [] |})
      /\ serve w r t =
         {| val := Json 401 (JObj [("message", JStr "Invalid token");
                                   ("requestId", JStr (request_id w r))]);
            tokens := t; calls := [] |}).
Proof.
  assert (Hreach : reaches_auth r = true) by (apply reaches_auth_spec; now split).
  split.
  - intros Hno.
    assert (E : auth w (identified w r) t =
                ret (Done (Json 401 (JObj [("message", JStr "Missing token");
                                           ("requestId", JStr (request_id w r))]))) t)
      by (apply auth_missing; assumption).
    split; [intros later; rewrite run_through_auth by exact Hreach
           | rewrite serve_through_auth by exact Hreach];
      unfold bind; rewrite E; reflexivity.
  - intros token Hb Hj.
    assert (E : auth w (identified w r) t =
                ret (Done (Json 401 (JObj [("message", JStr "Invalid token");
                                           ("requestId", JStr (request_id w r))]))) t)
      by (apply (auth_invalid w (identified w r) t token); assumption).
    split; [intros later; rewrite run_through_auth by exact Hreach
           | rewrite serve_through_auth by exact Hreach];
      unfold bind; rewrite E; reflexivity.
Qed.

(** C7 at work: no header, then a token that does not verify. *)
Lemma C7_witness :
  serve demo (request GET "/api/org/7" None) 200 =
  {| val := Json 401 (JObj [("message", JStr "Missing token");
                            ("requestId", JStr "req-1")]);
     tokens := 200; calls := [] |}
  /\ serve demo (request GET "/api/org/7" (Some "Bearer forged")) 200 =
     {| val := Json 401 (JObj [("message", JStr "Invalid token");
                               ("requestId", JStr "req-1")]);
        tokens := 200; calls := [] |}.
Proof.
  assert (Hprotected : forall a, ~ In (path (request GET "/api/org/7" a)) openPaths)
    by (intros a [H|[H|[H|[]]]]; discriminate H).
  assert (Hverb : GET <> OPTIONS) by discriminate.
  split.
  - destruct (C7_unauthenticated_is_401 demo (request GET "/api/org/7" None) 200
                Hverb eq_refl (Hprotected None)) as [Hmissing _].
    apply Hmissing. intros token [H _]. discriminate H.
  - destruct (C7_unauthenticated_is_401 demo
                (request GET "/api/org/7" (Some "Bearer forged")) 200
                Hverb eq_refl (Hprotected _)) as [_ Hinvalid].
    apply (Hinvalid "forged").
    + split; [reflexivity | discriminate].
    + reflexivity.
Defined.

(** C7 as stated fails: a POST to a protected path without any token, with
    a body that is no JSON text, is answered 400 by the framework on behalf
    of [express.json], which runs ahead of the auth middleware; an OPTIONS
    request without any token is answered 204 by [cors]. *)
Lemma C7_counterexample :
  ~ In (path (garbled POST "/api/org" None)) openPaths
  /\ (forall token, ~ carries_bearer (garbled POST "/api/org" None) token)
  /\ serve demo (garbled POST "/api/org" None) 200 =
     {| val := Lib 400; tokens := 200; calls := [] |}
  /\ ~ In (path (request OPTIONS "/api/org/7" None)) openPaths
  /\ serve demo (request OPTIONS "/api/org/7" None) 200 =
     {| val := Lib 204; tokens := 200; calls := [] |}.
Proof.
  split; [intros [H|[H|[H|[]]]]; discriminate H|].
  split; [intros token [H _]; discriminate H|].
  split; [vm_compute; reflexivity|].
  split; [intros [H|[H|[H|[]]]]; discriminate H|].
  vm_compute; reflexivity.
Qed.

Lemma resolved_failure (fr : FetchResult) :
  entitlement_failure fr ->
  resolved fr = JObj [("modules", JObj []); ("features", JObj [])].
Proof.
  intros [-> | [(s & d & -> & Hs) | (s & ->)]]; simpl.
  - reflexivity.
  - replace (ok s) with false; [reflexivity|].
    symmetry. unfold ok. apply andb_false_iff.
    destruct Hs as [Hs|Hs]; [left | right]; apply Z.leb_gt; exact Hs.
  - now destruct (ok s).
Qed.

(** C9.  For a request that passes identity verification, when the
    entitlement call throws, comes back with a non-success status, or comes
    back with a body that does not decode, the auth middleware sets
    [req.entitlements] to [{modules: {}, features: {}}] and calls [next()]:
    it answers nothing itself, and serving goes on with the layers behind
    it.  The same holds when the address of the call cannot be built, in
    which case no call is made. *)
Theorem C9_entitlements_fail_open (w : World) (r : Request) (t : float)
    (token : string) (p : Payload)
    (Hreach : method r <> OPTIONS /\ refused r = None)
    (Hprotected : ~ In (path r) openPaths)
    (Hbearer : carries_bearer r token)
    (Hverified : jwt_verify w token (secret w) = Some p) :
  let c' := {| rq := r; id := request_id w r; user := Some (payload_json p);
               entitlements :=
                 Some (JObj [("modules", JObj []); ("features", JObj [])]) |} in
  (forall url,
      entitlements_url (js w) (env w) (tenant_of (js w) (Some (payload_json p)))
      = Some url ->
      entitlement_failure
        (net w {| o_method := GET; o_url := url; o_headers := []; o_body := NoBody |}) ->
      let call :=
        (SEntitlements,
         {| o_method := GET; o_url := url; o_headers := []; o_body := NoBody |}) in
      auth w (identified w r) t = {| val := Next c'; tokens := t; calls := [call] |}
      /\ val (serve w r t) = val (run_stack w behind_auth c' t)
      /\ tokens (serve w r t) = tokens (run_stack w behind_auth c' t)
      /\ calls (serve w r t) = call :: calls (run_stack w behind_auth c' t))
  /\ (entitlements_url (js w) (env w) (tenant_of (js w) (Some (payload_json p)))
      = None ->
      auth w (identified w r) t = {| val := Next c'; tokens := t; calls := [] |}
      /\ serve w r t = run_stack w behind_auth c' t).
Proof.
  intros c'.
  assert (Hr : reaches_auth r = true) by now apply reaches_auth_spec.
  split.
  - intros url Hurl Hfailure call.
    assert (E : auth w (identified w r) t =
                {| val := Next c'; tokens := t; calls := [call] |}).
    { rewrite (auth_verified w (identified w r) t token p) by assumption.
      rewrite Hurl. unfold bind, fetch, ret, plain_get; cbn [val tokens calls app].
      rewrite (resolved_failure _ Hfailure). reflexivity. }
    split; [exact E|].
    rewrite serve_through_auth by exact Hr.
    rewrite (bind_next _ _ _ _ _ _ _ E).
    repeat split.
  - intros Hurl.
    assert (E : auth w (identified w r) t =
                {| val := Next c'; tokens := t; calls := [] |}).
    { rewrite (auth_verified w (identified w r) t token p) by assumption.
      rewrite Hurl. reflexivity. }
    split; [exact E|].
    rewrite serve_through_auth by exact Hr.
    rewrite (bind_next _ _ _ _ _ _ _ E).
    apply res_eta.
Qed.

(** C9 at work: the tenant "default" is unknown to the entitlement service,
    whose address does not answer. *)
Lemma C9_witness :
  auth demo (identified demo (request GET "/api/org/7" (Some "Bearer solo"))) 200 =
  {| val := Next {| rq := request GET "/api/org/7" (Some "Bearer solo");
                    id := "req-1"; user := Some (JStr "solo");
                    entitlements :=
                      Some (JObj [("modules", JObj []); ("features", JObj [])]) |};
     tokens := 200;
     calls := [(SEntitlements,
                {| o_method := GET;
                   o_url := "http://localhost:7002/entitlements/default";
                   o_headers := []; o_body := NoBody |})] |}.
Proof.
  refine (proj1 (proj1 (C9_entitlements_fail_open demo
                          (request GET "/api/org/7" (Some "Bearer solo")) 200
                          "solo" (PStr "solo") _ _ _ _)
                       "http://localhost:7002/entitlements/default" _ _)).
  - split; [discriminate | reflexivity].
  - intros [H|[H|[H|[]]]]; discriminate H.
  - split; [reflexivity | discriminate].
  - reflexivity.
  - reflexivity.
  - left. reflexivity.
Defined.

(* ------------------------------------------------------------------ *)
(** ** Every walk ends in one of the outcomes *)

(** One handler: it either hands the request on, correlation id untouched and
    at most the entitlement call issued, or it answers. *)
Lemma handle_outcome (w : World) (h : Handler) (ps : Params) (c : Ctx) (t : float) :
  plain h = true ->
  match val (handle w h ps c t) with
  | Next c' => id c' = id c /\ from SEntitlements (calls (handle w h ps c t))
  | Done resp => Outcome w (id c) (calls (handle w h ps c t)) resp
  end.
Proof.
  destruct h; intros Hp; try discriminate Hp; cbn [handle].
  - (* pinoHttp, helmet *)
    cbn. split; [reflexivity | constructor].
  - (* cors *)
    unfold preflight. destruct (method (rq c)); cbn;
      try (split; [reflexivity | constructor]).
    apply by_library. cbn. auto.
  - (* express.json *)
    unfold parseBody. destruct (refused (rq c)) as [[]|]; cbn;
      try (split; [reflexivity | constructor]);
      apply by_library; cbn; auto.
  - (* auth *)
    auth_cases; cbn;
      try (split; [reflexivity | repeat constructor]);
      apply unauthenticated; cbn; auto.
  - (* rate limit *)
    unfold rateLimit. destruct (t <=? 0)%float; cbn.
    + constructor.
    + split; [reflexivity | constructor].
  - cbn. constructor.
  - cbn. constructor.
  - (* /readyz/full *)
    unfold readyzFull.
    cbn [mapM bind ret fetch val tokens calls app fst snd map].
    match goal with
    | |- context [forallb snd ?l] => destruct (forallb snd l)
    end.
    + apply ready. repeat constructor.
    + apply unready. repeat constructor.
  - cbn. constructor.
  - (* proxy *)
    unfold proxy, bind, fetch. cbn [val tokens calls app].
    destruct (net w (outreq (js w) (boot w) b ps c)) as [|s [j|]] eqn:E;
      cbn [ret val tokens calls app].
    + apply unavailable. left. exact E.
    + apply relayed. exact E.
    + apply unavailable. right. exists s. exact E.
  - (* module guard *)
    unfold moduleEnabled. destruct (is_false _); cbn.
    + constructor.
    + split; [reflexivity | constructor].
  - (* feature guard *)
    unfold featureEnabled. destruct (is_false _); cbn.
    + constructor.
    + split; [reflexivity | constructor].
Qed.

(** A whole walk: entitlement calls first, then the calls of the handler
    that answers. *)
Lemma run_stack_outcome (w : World) (ls : list Layer) :
  plain_layers ls = true ->
  forall (c : Ctx) (t : float),
  exists pre cs,
    calls (run_stack w ls c t) = (pre ++ cs)%list
    /\ from SEntitlements pre
    /\ Outcome w (id c) cs (val (run_stack w ls c t)).
Proof.
  induction ls as [|l ls IH]; intros Hp c t.
  - exists [], []. cbn. repeat split; constructor.
  - cbn [plain_layers forallb] in Hp. apply andb_prop in Hp as [Hl Hls].
    specialize (IH Hls).
    cbn [run_stack]. destruct (layer_match (js w) l (rq c)) as [|ps|]; [apply IH| |].
    + pose proof (handle_outcome w (handler_of l) ps c t Hl) as Hh.
      unfold bind. cbn [val tokens calls].
      destruct (val (handle w (handler_of l) ps c t)) as [c'|resp] eqn:E.
      * destruct Hh as [Hid Hent].
        destruct (IH c' (tokens (handle w (handler_of l) ps c t)))
          as (pre & cs & Hc & Hpre & Hout).
        exists (calls (handle w (handler_of l) ps c t) ++ pre)%list, cs.
        rewrite Hc, app_assoc, <- Hid. repeat split; [|exact Hout].
        apply Forall_app. split; assumption.
      * exists [], (calls (handle w (handler_of l) ps c t)).
        cbn [ret val tokens calls app]. rewrite app_nil_r.
        repeat split; [constructor | exact Hh].
    + exists [], []. cbn. repeat split; [constructor|].
      apply by_library. cbn. auto.
Qed.

Lemma stack_head : stack = Use [] hRequestId :: tl stack.
Proof. reflexivity. Qed.

Lemma run_behind_id (w : World) (r : Request) (ls : list Layer) (t : float) :
  run_stack w (Use [] hRequestId :: ls) (init_ctx r) t =
  run_stack w ls (identified w r) t.
Proof. reflexivity. Qed.

Lemma serve_behind_id (w : World) (r : Request) (t : float) :
  serve w r t = run_stack w (tl stack) (identified w r) t.
Proof. rewrite <- run_behind_id, <- stack_head. reflexivity. Qed.

Lemma plain_stack : plain_layers (tl stack) = true.
Proof. vm_compute. reflexivity. Qed.

(** The calls and the answer of a served request. *)
Lemma serve_outcome (w : World) (r : Request) (t : float) :
  exists pre cs,
    calls (serve w r t) = (pre ++ cs)%list
    /\ from SEntitlements pre
    /\ Outcome w (request_id w r) cs (val (serve w r t)).
Proof.
  rewrite serve_behind_id.
  apply (run_stack_outcome w (tl stack) plain_stack (identified w r) t).
Qed.

Lemma not_from (site site' : Site) (o : OutReq) (cs : list Call) :
  from site cs -> In (site', o) cs -> site' = site.
Proof.
  intros H Hin. unfold from in H. rewrite Forall_forall in H.
  apply (H _ Hin).
Qed.

Lemma outcome_of_proxy_call (w : World) (ident : string) (cs : list Call)
    (resp : Response) (b : RouteBinding) (o : OutReq) :
  Outcome w ident cs resp ->
  In (SProxy b, o) cs ->
  (exists s j, net w o = Reply s (Some j) /\ resp = Json s j)
  \/ (transport_failure (net w o)
      /\ resp = Json 502 (JObj [("message", JStr (label b ++ "-service unavailable"));
                                ("requestId", JStr ident)])).
Proof.
  intros Hout Hin.
  destruct Hout as [s Hs | m Hm | | m | body | cs st Hpr | cs st Hpr
                   | b' o' s j Hnet | b' o' Hnet | ];
    try (destruct Hin; fail);
    try (apply (not_from _ _ _ _ Hpr) in Hin; discriminate Hin).
  - destruct Hin as [[= <- <-]|[]]. left. exists s, j. split; [exact Hnet | reflexivity].
  - destruct Hin as [[= <- <-]|[]]. right. split; [exact Hnet | reflexivity].
Qed.

(** A proxy call in the trace is the call of the handler that answered. *)
Lemma proxy_call_answers (w : World) (r : Request) (t : float)
    (b : RouteBinding) (o : OutReq) :
  In (SProxy b, o) (calls (serve w r t)) ->
  (exists s j, net w o = Reply s (Some j) /\ val (serve w r t) = Json s j)
  \/ (transport_failure (net w o)
      /\ val (serve w r t) =
         Json 502 (JObj [("message", JStr (label b ++ "-service unavailable"));
                         ("requestId", JStr (request_id w r))])).
Proof.
  intros Hin.
  destruct (serve_outcome w r t) as (pre & cs & Hc & Hpre & Hout).
  rewrite Hc in Hin. apply in_app_or in Hin as [Hin|Hin].
  - apply (not_from _ _ _ _ Hpre) in Hin. discriminate Hin.
  - exact (outcome_of_proxy_call w _ cs _ b o Hout Hin).
Qed.

(* ------------------------------------------------------------------ *)
(** ** Dispatch *)

Lemma append_empty (s : string) : s ++ "" = s.
Proof. induction s as [|a s IH]; simpl; [reflexivity | now rewrite IH]. Qed.

Lemma append_assoc (a b c : string) : (a ++ b) ++ c = a ++ b ++ c.
Proof. induction a as [|x a IH]; simpl; [reflexivity | now rewrite IH]. Qed.

Lemma behind_auth_layers :
  behind_auth =
  (Use [] hRateLimit
   :: Route GET [Lit "healthz"] hHealthz
   :: Route GET [Lit "readyz"] hReadyz
   :: Route GET [Lit "readyz"; Lit "full"] hReadyzFull
   :: Route GET [Lit "api"; Lit "v1"; Lit "me"] hMe
   :: Route GET [Lit "api"; Lit "org"; Par "id"] (hProxy org_by_id)
   :: skipn 12 stack)%list.
Proof. vm_compute. reflexivity. Qed.

Lemma auth_keeps_request (w : World) (c c' : Ctx) (t : float) :
  val (auth w c t) = Next c' -> rq c' = rq c.
Proof.
  auth_cases; try discriminate; cbn; now intros [= <-].
Qed.

Lemma run_skip (w : World) (l : Layer) (ls : list Layer) (c : Ctx) (t : float) :
  layer_match (js w) l (rq c) = Miss ->
  run_stack w (l :: ls) c t = run_stack w ls c t.
Proof. intros H. cbn [run_stack]. now rewrite H. Qed.

Lemma run_hit (w : World) (l : Layer) (ls : list Layer) (c : Ctx) (t : float)
    (ps : Params) :
  layer_match (js w) l (rq c) = Hit ps ->
  run_stack w (l :: ls) c t =
  (let* s := handle w (handler_of l) ps c in
   match s with
   | Next c' => run_stack w ls c'
   | Done resp => ret resp
   end) t.
Proof. intros H. cbn [run_stack]. now rewrite H. Qed.

Lemma run_broken (w : World) (l : Layer) (ls : list Layer) (c : Ctx) (t : float) :
  layer_match (js w) l (rq c) = Broken ->
  run_stack w (l :: ls) c t = answered (Lib 400) t.
Proof. intros H. cbn [run_stack]. now rewrite H. Qed.

(** The rate limiter in front of the layers behind it. *)
Lemma run_limiter (w : World) (ls : list Layer) (c : Ctx) (t : float) :
  run_stack w (Use [] hRateLimit :: ls) c t =
  if (t <=? 0)%float
  then answered (Json 429 (JObj [("message", JStr "Too many requests");
                                 ("requestId", JStr (id c))])) t
  else run_stack w ls c (t - 1).
Proof.
  rewrite (run_hit w _ ls c t []) by reflexivity.
  unfold bind. cbn [handler_of handle]. unfold rateLimit.
  destruct (t <=? 0)%float; reflexivity.
Qed.

(** The route of line 115 against a path /api/org/<x>. *)
Lemma org_route_match (rt : Runtime) (h : Handler) (r : Request) (x : string) :
  segs r = ["api"; "org"; x] ->
  x <> "" ->
  layer_match rt (Route GET [Lit "api"; Lit "org"; Par "id"] h) r =
  match decodeURIComponent rt x with
  | Some x' => if serves GET (method r) then Hit [("id", x')] else Miss
  | None => Broken
  end.
Proof.
  intros Hs Hx. apply String.eqb_neq in Hx.
  unfold layer_match, match_route. rewrite Hs.
  cbn [match_path]. replace (same_literal "api" "api") with true by reflexivity.
  replace (same_literal "org" "org") with true by reflexivity.
  rewrite Hx. cbn [option_map decode_params map sequence fst snd].
  destruct (decodeURIComponent rt x); reflexivity.
Qed.

(** GET /api/org/:id: behind the auth middleware the only proxy call is the
    one of line 117, to the address that ends in the decoded parameter. *)
Lemma org_route_call (w : World) (c : Ctx) (t : float) (x : string)
    (b : RouteBinding) (o : OutReq) :
  method (rq c) = GET ->
  segs (rq c) = ["api"; "org"; x] ->
  x <> "" ->
  In (SProxy b, o) (calls (run_stack w behind_auth c t)) ->
  b = org_by_id
  /\ exists x', decodeURIComponent (js w) x = Some x'
                /\ o = plain_get (base (boot w) ORG ++ "/org/" ++ x').
Proof.
  intros Hm Hs Hx. rewrite behind_auth_layers.
  generalize (skipn 12 stack) as later; intros later.
  rewrite run_limiter. destruct (t <=? 0)%float; [intros H; destruct H|].
  do 4 (rewrite run_skip
          by (unfold layer_match, match_route; rewrite Hs; reflexivity)).
  pose proof (org_route_match (js w) (hProxy org_by_id) (rq c) x Hs Hx) as Hmatch.
  rewrite Hm in Hmatch.
  destruct (decodeURIComponent (js w) x) as [x'|].
  - rewrite (run_hit w _ later c (t - 1) [("id", x')]) by exact Hmatch.
    cbn [handler_of handle]. unfold bind, proxy, bind, fetch.
    cbn [val tokens calls].
    destruct (net w (outreq (js w) (boot w) org_by_id [("id", x')] c)) as [|s [j|]];
      cbn [ret val tokens calls app];
      (intros [[= <- <-]|[]]; split; [reflexivity|]; exists x';
       split; [reflexivity|];
       unfold outreq, url_of, render; cbn; now rewrite !append_empty).
  - rewrite run_broken by exact Hmatch. intros [].
Qed.

Lemma auth_calls (w : World) (c : Ctx) (t : float) :
  from SEntitlements (calls (auth w c t)).
Proof.
  auth_cases; cbn; repeat constructor.
Qed.

Lemma auth_keeps_id (w : World) (c c' : Ctx) (t : float) :
  val (auth w c t) = Next c' -> id c' = id c.
Proof.
  auth_cases; try discriminate; cbn; now intros [= <-].
Qed.

(** A proxy call is issued behind the auth middleware, for the request as
    it came in. *)
Lemma proxy_call_behind_auth (w : World) (r : Request) (t : float)
    (b : RouteBinding) (o : OutReq) :
  In (SProxy b, o) (calls (serve w r t)) ->
  exists c' t',
    rq c' = r /\ id c' = request_id w r
    /\ In (SProxy b, o) (calls (run_stack w behind_auth c' t')).
Proof.
  rewrite serve_to_auth.
  destruct (method r); try (intros []; fail);
    (destruct (refused r); [intros []|]);
    (unfold bind; cbn [calls];
     intros Hin; apply in_app_or in Hin as [Hin|Hin];
     [ apply (not_from _ _ _ _ (auth_calls w _ t)) in Hin; discriminate Hin
     | destruct (val (auth w (identified w r) t)) as [c'|resp] eqn:E;
       [ exists c', (tokens (auth w (identified w r) t));
         split; [apply (auth_keeps_request _ _ _ _ E)|];
         split; [apply (auth_keeps_id _ _ _ _ E) | exact Hin]
       | destruct Hin ] ]).
Qed.

(** C6.  Whenever serving a request issues the call of a proxy handler and
    the downstream answers it with status [s] and a body that decodes to
    [j], the gateway answers with status [s] and body [j], unchanged. *)
Theorem C6_downstream_reply_is_relayed (w : World) (r : Request) (t : float)
    (b : RouteBinding) (o : OutReq) (s : Z) (j : json)
    (Hcall : In (SProxy b, o) (calls (serve w r t)))
    (Hreply : net w o = Reply s (Some j)) :
  val (serve w r t) = Json s j.
Proof.
  destruct (proxy_call_answers w r t b o Hcall)
    as [(s' & j' & Hnet & Hval) | ([Hnet | (s' & Hnet)] & _)].
  - rewrite Hreply in Hnet. injection Hnet as <- <-. exact Hval.
  - rewrite Hreply in Hnet. discriminate Hnet.
  - rewrite Hreply in Hnet. discriminate Hnet.
Qed.

(** C5.  Whenever serving a request issues the call of a proxy handler and
    that call fails in transport (fetch throws, or the body does not decode
    as JSON), the gateway answers 502 with body exactly
    [{message: "<label>-service unavailable", requestId}], the label being
    the one of that handler; for GET /api/org/:id the handler is the one
    that calls [ORG_BASE/org/:id], a GET without headers or body to the
    address that ends in the decoded parameter, and the message is
    "org-service unavailable". *)
Theorem C5_transport_failure_is_502 (w : World) (r : Request) (t : float)
    (b : RouteBinding) (o : OutReq)
    (Hcall : In (SProxy b, o) (calls (serve w r t)))
    (Hfailure : transport_failure (net w o)) :
  val (serve w r t) =
  Json 502 (JObj [("message", JStr (label b ++ "-service unavailable"));
                  ("requestId", JStr (request_id w r))])
  /\ (forall x,
         method r = GET -> segs r = ["api"; "org"; x] -> x <> "" ->
         (exists x',
             decodeURIComponent (js w) x = Some x'
             /\ o = {| o_method := GET;
                       o_url := base (boot w) ORG ++ "/org/" ++ x';
                       o_headers := []; o_body := NoBody |})
         /\ val (serve w r t) =
            Json 502 (JObj [("message", JStr "org-service unavailable");
                            ("requestId", JStr (request_id w r))])).
Proof.
  assert (Hval : val (serve w r t) =
                 Json 502 (JObj [("message", JStr (label b ++ "-service unavailable"));
                                 ("requestId", JStr (request_id w r))])).
  { destruct (proxy_call_answers w r t b o Hcall)
      as [(s' & j' & Hnet & _) | (_ & Hval)]; [|exact Hval].
    destruct Hfailure as [Hf | (s & Hf)]; rewrite Hf in Hnet; discriminate Hnet. }
  split; [exact Hval|].
  intros x Hm Hs Hx.
  destruct (proxy_call_behind_auth w r t b o Hcall) as (c' & t' & Hrq & _ & Hin).
  rewrite <- Hrq in Hm, Hs.
  destruct (org_route_call w c' t' x b o Hm Hs Hx Hin) as [Hb (x' & Hdec & Ho)].
  rewrite Hval. subst b. split; [|reflexivity].
  exists x'. split; [exact Hdec | exact Ho].
Qed.

(** C6 at work: forms-service answers 201 with [{id: "abc"}]. *)
Lemma C6_witness :
  val (serve demo (request POST "/api/forms" (Some "Bearer good")) 200) =
  Json 201 (JObj [("id", JStr "abc")]).
Proof.
  apply (C6_downstream_reply_is_relayed demo
           (request POST "/api/forms" (Some "Bearer good")) 200
           {| svc := FORMS; dpath := [Lit "forms"]; with_qs := false;
              opts := json_post; label := "forms" |}
           {| o_method := POST; o_url := "http://localhost:7004/forms";
              o_headers := [("content-type", Some (JStr "application/json"))];
              o_body := Stringify (Some (JObj [])) |}).
  - vm_compute. right. left. reflexivity.
  - reflexivity.
Defined.

(** C5 at work: org-service refuses the connection. *)
Lemma C5_witness :
  val (serve demo (request GET "/api/org/7" (Some "Bearer good")) 200) =
  Json 502 (JObj [("message", JStr "org-service unavailable");
                  ("requestId", JStr "req-1")]).
Proof.
  refine (proj1 (C5_transport_failure_is_502 demo
                   (request GET "/api/org/7" (Some "Bearer good")) 200
                   org_by_id (plain_get "http://localhost:7003/org/7") _ _)).
  - vm_compute. right. left. reflexivity.
  - left. reflexivity.
Defined.

(* ------------------------------------------------------------------ *)
(** ** /healthz *)

(** C3, as amended.  A GET of /healthz that [express.json] passes on,
    whatever its headers, is answered 200 [{status: "ok", requestId}] when
    the limiter does not find the admission counter at zero or below (and
    takes one unit of it), and 429 [{message: "Too many requests",
    requestId}] when it does; no call leaves the process. *)
Theorem C3_healthz_behind_the_limiter (w : World) (r : Request) (t : float)
    (Hget : method r = GET) (Hpath : segs r = ["healthz"])
    (Hbody : refused r = None) :
  serve w r t =
  if (t <=? 0)%float
  then {| val := Json 429 (JObj [("message", JStr "Too many requests");
                                 ("requestId", JStr (request_id w r))]);
          tokens := t; calls := [] |}
  else {| val := Json 200 (JObj [("status", JStr "ok");
                                 ("requestId", JStr (request_id w r))]);
          tokens := (t - 1)%float; calls := [] |}.
Proof.
  rewrite serve_through_auth
    by (apply reaches_auth_spec; rewrite Hget; split; [discriminate | exact Hbody]).
  rewrite (bind_next _ _ _ t t (identified w r) [])
    by (apply auth_open; unfold path; cbn [identified rq]; rewrite Hpath;
        left; reflexivity).
  rewrite res_eta.
  rewrite behind_auth_layers. generalize (skipn 12 stack) as later; intros later.
  rewrite run_limiter. cbn [identified id].
  destruct (t <=? 0)%float; [reflexivity|].
  rewrite (run_hit w _ _ _ _ [])
    by (cbn [layer_match identified rq]; rewrite Hget, Hpath; reflexivity).
  reflexivity.
Qed.

Lemma C3_witness :
  serve demo (request GET "/healthz" (Some "not even a bearer token")) 200 =
  {| val := Json 200 (JObj [("status", JStr "ok"); ("requestId", JStr "req-1")]);
     tokens := 199; calls := [] |}.
Proof.
  exact (C3_healthz_behind_the_limiter demo
           (request GET "/healthz" (Some "not even a bearer token")) 200
           eq_refl eq_refl eq_refl).
Defined.

(** C3 as stated fails: with the counter at zero, GET /healthz is answered
    429, not 200. *)
Lemma C3_counterexample :
  val (serve demo (request GET "/healthz" None) 0) =
  Json 429 (JObj [("message", JStr "Too many requests");
                  ("requestId", JStr "req-1")])
  /\ ~ (exists body, val (serve demo (request GET "/healthz" None) 0) = Json 200 body).
Proof.
  split; [vm_compute; reflexivity|]. intros [body H]. vm_compute in H. discriminate H.
Qed.

(* ------------------------------------------------------------------ *)
(** ** The guards *)

(** C1.  The guard of line 428 is registered behind the forms routes.  With
    the forms module switched off for the tenant, POST /api/forms is still
    forwarded to forms-service and its reply relayed: the handler of line 126
    answers before the guard is reached. *)
Theorem C1_forms_guard_is_behind_the_routes :
  get (js demo) "forms" (get (js demo) "modules"
    (Some (resolved (net demo (plain_get "http://localhost:7002/entitlements/acme")))))
  = Some (JBool false)
  /\ serve demo (request POST "/api/forms" (Some "Bearer good")) 200 =
     {| val := Json 201 (JObj [("id", JStr "abc")]);
        tokens := 199;
        calls :=
          [(SEntitlements, plain_get "http://localhost:7002/entitlements/acme");
           (SProxy {| svc := FORMS; dpath := [Lit "forms"]; with_qs := false;
                      opts := json_post; label := "forms" |},
            {| o_method := POST; o_url := "http://localhost:7004/forms";
               o_headers := [("content-type", Some (JStr "application/json"))];
               o_body := Stringify (Some (JObj [])) |})] |}.
Proof. split; vm_compute; reflexivity. Qed.

(** Where no route answers first the same guard does deny: GET /api/forms. *)
Lemma forms_guard_denies_unrouted :
  serve demo (request GET "/api/forms" (Some "Bearer good")) 200 =
  {| val := Json 403 (JObj [("message", JStr "Module disabled: forms")]);
     tokens := 199;
     calls := [(SEntitlements, plain_get "http://localhost:7002/entitlements/acme")] |}.
Proof. vm_compute. reflexivity. Qed.

(** The guard of line 433 is registered in front of its route (line 438) and
    denies before any call to translation-service. *)
Lemma i18n_guard_denies :
  serve demo (request GET "/api/i18n/common" (Some "Bearer good")) 200 =
  {| val := Json 403 (JObj [("message", JStr "Feature disabled: i18n")]);
     tokens := 199;
     calls := [(SEntitlements, plain_get "http://localhost:7002/entitlements/acme")] |}.
Proof. vm_compute. reflexivity. Qed.

(** No property of a text is [false]. *)
Lemma text_has_no_false (rt : Runtime) (key s : string) :
  is_false (get rt key (Some (JStr s))) = false.
Proof.
  cbn [get]. destruct (String.eqb key "length"); [reflexivity|].
  destruct (index_of key) as [n|]; [|reflexivity].
  destruct (code_unit rt s n); reflexivity.
Qed.

(** [(e && e.k) || {}], then a property of it: what is read is a property of
    [e.k], and of nothing when [e] or [e.k] is falsy. *)
Lemma guard_table (rt : Runtime) (group key : string) (e : value) :
  is_false (get rt key (js_or (js_and e (get rt group e)) (Some (JObj [])))) =
  is_false (get rt key (get rt group e)).
Proof.
  unfold js_or, js_and.
  destruct (truthy e) eqn:Ee.
  - destruct (truthy (get rt group e)) eqn:Eg; [reflexivity|].
    destruct (get rt group e) as [[| b | x | s | l | fs]|]; try discriminate Eg;
      try reflexivity.
    rewrite text_has_no_false. reflexivity.
  - rewrite Ee.
    destruct e as [[| b | x | s | l | fs]|]; try discriminate Ee; try reflexivity.
    cbn [get].
    destruct (String.eqb group "length"); [reflexivity|].
    destruct (index_of group) as [n|]; [|reflexivity].
    destruct (code_unit rt s n); [|reflexivity].
    cbn [option_map]. rewrite text_has_no_false. reflexivity.
Qed.

(** The guards, where they run: deny exactly on [false]. *)
Lemma moduleEnabled_spec (rt : Runtime) (key : string) (c : Ctx) (t : float) :
  moduleEnabled rt key c t =
  if is_false (get rt key (get rt "modules" (entitlements c)))
  then ret (Done (Json 403 (JObj [("message", JStr ("Module disabled: " ++ key))]))) t
  else ret (Next c) t.
Proof.
  unfold moduleEnabled. cbv zeta. rewrite guard_table.
  destruct (is_false _); reflexivity.
Qed.

Lemma featureEnabled_spec (rt : Runtime) (flag : string) (c : Ctx) (t : float) :
  featureEnabled rt flag c t =
  if is_false (get rt flag (get rt "features" (entitlements c)))
  then ret (Done (Json 403 (JObj [("message", JStr ("Feature disabled: " ++ flag))]))) t
  else ret (Next c) t.
Proof.
  unfold featureEnabled. cbv zeta. rewrite guard_table.
  destruct (is_false _); reflexivity.
Qed.

(** Whatever the entitlements say, a POST of /api/forms that the limiter
    lets through is answered by the proxy handler of line 126. *)
Lemma forms_post_is_proxied (w : World) (c : Ctx) (t : float) :
  method (rq c) = POST ->
  segs (rq c) = ["api"; "forms"] ->
  (t <=? 0)%float = false ->
  run_stack w behind_auth c t =
  (let* s := proxy w {| svc := FORMS; dpath := [Lit "forms"]; with_qs := false;
                        opts := json_post; label := "forms" |} [] c in
   ret match s with
       | Next _ => NotFound
       | Done resp => resp
       end) (t - 1)%float.
Proof.
  intros Hm Hs Ht. rewrite behind_auth_layers.
  replace (skipn 12 stack)
    with (Route POST [Lit "api"; Lit "forms"]
            (hProxy {| svc := FORMS; dpath := [Lit "forms"]; with_qs := false;
                       opts := json_post; label := "forms" |})
          :: skipn 13 stack)
    by (vm_compute; reflexivity).
  generalize (skipn 13 stack) as later; intros later.
  rewrite run_limiter, Ht.
  do 5 (rewrite run_skip
          by (unfold layer_match, match_route; rewrite Hs; reflexivity)).
  rewrite (run_hit w _ later c (t - 1) [])
    by (cbn [layer_match]; rewrite Hm, Hs; reflexivity).
  cbn [handler_of handle]. unfold bind, proxy, bind, fetch.
  cbn [val tokens calls].
  destruct (net w _) as [|s [j|]]; reflexivity.
Qed.

(* ------------------------------------------------------------------ *)
(** ** The entitlement address *)

(** C2.  With ENTITLEMENTS_URL set, the entitlement call goes to that
    address as it is: the tenant ("acme" here) is appended to the built-in
    address only. *)
Theorem C2_configured_address_drops_the_tenant :
  tenant_of (js demo)
    (Some (JObj [("id", JStr "u1"); ("scopes", JObj [("orgId", JStr "acme")])]))
  = JStr "acme"
  /\ calls (serve configured (request GET "/api/v1/me" (Some "Bearer good")) 200) =
     [(SEntitlements, plain_get "http://entitlements.internal/entitlements/")]
  /\ calls (serve demo (request GET "/api/v1/me" (Some "Bearer good")) 200) =
     [(SEntitlements, plain_get "http://localhost:7002/entitlements/acme")].
Proof. repeat split; vm_compute; reflexivity. Qed.

(* ------------------------------------------------------------------ *)
(** ** Error bodies *)

Lemma outcome_error_shape (w : World) (ident : string) (cs : list Call)
    (resp : Response) (s : Z) (body : json) :
  Outcome w ident cs resp ->
  resp = Json s body ->
  In s [401; 429; 502; 503] ->
  (exists b o, In (SProxy b, o) cs /\ net w o = Reply s (Some body))
  \/ (exists m,
         body = JObj [("message", JStr m); ("requestId", JStr ident)]
         /\ message_of s m)
  \/ (s = 503
      /\ exists status, body = JObj [("ready", JBool false); ("status", JObj status)]).
Proof.
  intros Hout Hresp Hs.
  destruct Hout as [s0 Hs0 | m Hm | | m | body' | cs st Hpr | cs st Hpr
                   | b o s' j Hnet | b o Hnet | ];
    try discriminate Hresp; injection Hresp as <- <-.
  - right; left. exists m. split; [reflexivity|]. left. split; [reflexivity|].
    destruct Hm as [<-|[<-|[]]]; auto.
  - right; left. eexists. split; [reflexivity|]. right; left. split; reflexivity.
  - exfalso. cbn in Hs. intuition discriminate.
  - exfalso. cbn in Hs. intuition discriminate.
  - exfalso. cbn in Hs. intuition discriminate.
  - right; right. split; [reflexivity | now exists st].
  - left. exists b, o. split; [left; reflexivity | exact Hnet].
  - right; left. eexists. split; [reflexivity|]. right; right.
    split; [reflexivity | eexists; reflexivity].
Qed.

(** C4, as amended.  A 401, 429, 502 or 503 answer is either the reply of a
    downstream service relayed as it came, or, for 401, 429 and 502, the
    object [{message, requestId}] with the requestId of the request and the
    message of the status ("Missing token" or "Invalid token",
    "Too many requests", "<service>-service unavailable"), or, for 503, the
    readiness report [{ready: false, status}] of /readyz/full. *)
Theorem C4_error_bodies (w : World) (r : Request) (t : float) (s : Z) (body : json)
    (Hanswer : val (serve w r t) = Json s body)
    (Herror : In s [401; 429; 502; 503]) :
  (exists b o, In (SProxy b, o) (calls (serve w r t))
               /\ net w o = Reply s (Some body))
  \/ (exists m,
         body = JObj [("message", JStr m); ("requestId", JStr (request_id w r))]
         /\ message_of s m)
  \/ (s = 503
      /\ exists status, body = JObj [("ready", JBool false); ("status", JObj status)]).
Proof.
  destruct (serve_outcome w r t) as (pre & cs & Hc & _ & Hout).
  destruct (outcome_error_shape w _ cs _ s body Hout Hanswer Herror)
    as [(b & o & Hin & Hnet) | H]; [|right; exact H].
  left. exists b, o. split; [|exact Hnet].
  rewrite Hc. apply in_or_app. right. exact Hin.
Qed.

Lemma C4_witness :
  (exists b o,
      In (SProxy b, o) (calls (serve demo (request GET "/api/org/7" None) 200))
      /\ net demo o =
         Reply 401 (Some (JObj [("message", JStr "Missing token");
                                ("requestId", JStr "req-1")])))
  \/ (exists m,
         JObj [("message", JStr "Missing token"); ("requestId", JStr "req-1")] =
         JObj [("message", JStr m); ("requestId", JStr "req-1")]
         /\ message_of 401 m)
  \/ (401 = 503
      /\ exists status,
           JObj [("message", JStr "Missing token"); ("requestId", JStr "req-1")] =
           JObj [("ready", JBool false); ("status", JObj status)]).
Proof.
  apply (C4_error_bodies demo (request GET "/api/org/7" None) 200 401
           (JObj [("message", JStr "Missing token"); ("requestId", JStr "req-1")])).
  - vm_compute. reflexivity.
  - left. reflexivity.
Defined.

(** C4 as stated fails: with staff-service unreachable, /readyz/full is
    answered 503 by the gateway itself (no proxy call is involved) and the
    body has neither a message nor a requestId. *)
Lemma C4_counterexample :
  let res := serve demo (request GET "/readyz/full" (Some "Bearer good")) 200 in
  val res =
  Json 503 (JObj [("ready", JBool false);
                  ("status", JObj [("org", JBool true); ("forms", JBool true);
                                   ("submissions", JBool true);
                                   ("discounts", JBool true);
                                   ("staff", JBool false)])])
  /\ (forall b o, ~ In (SProxy b, o) (calls res))
  /\ (forall body, val res = Json 503 body ->
                   get (js demo) "message" (Some body) = None
                   /\ get (js demo) "requestId" (Some body) = None).
Proof.
  cbv zeta. split; [vm_compute; reflexivity|]. split.
  - intros b o H. vm_compute in H.
    repeat (destruct H as [H|H]; [discriminate H|]). exact H.
  - intros body H. vm_compute in H. injection H as <-. split; reflexivity.
Qed.

(** The 403 of a guard is a body with a message and nothing else. *)
Lemma guard_denial_has_no_requestId :
  val (serve demo (request GET "/api/i18n/common" (Some "Bearer good")) 200) =
  Json 403 (JObj [("message", JStr "Feature disabled: i18n")])
  /\ get (js demo) "requestId" (Some (JObj [("message", JStr "Feature disabled: i18n")]))
     = None.
Proof. split; vm_compute; reflexivity. Qed.

(* ------------------------------------------------------------------ *)
(** ** The admission counter *)

Lemma val_bind (m : M Step) (k : Ctx -> M Response) (t : float) :
  val ((let* s := m in
        match s with
        | Next c => k c
        | Done resp => ret resp
        end) t) =
  match val (m t) with
  | Next c => val (k c (tokens (m t)))
  | Done resp => resp
  end.
Proof. unfold bind. cbn [val]. destruct (val (m t)); reflexivity. Qed.

Lemma tokens_bind (m : M Step) (k : Ctx -> M Response) (t : float) :
  tokens ((let* s := m in
           match s with
           | Next c => k c
           | Done resp => ret resp
           end) t) =
  match val (m t) with
  | Next c => tokens (k c (tokens (m t)))
  | Done resp => tokens (m t)
  end.
Proof. unfold bind. cbn [tokens]. destruct (val (m t)); reflexivity. Qed.

Lemma calls_bind (m : M Step) (k : Ctx -> M Response) (t : float) :
  calls ((let* s := m in
          match s with
          | Next c => k c
          | Done resp => ret resp
          end) t) =
  (calls (m t) ++ match val (m t) with
                  | Next c => calls (k c (tokens (m t)))
                  | Done resp => []
                  end)%list.
Proof. unfold bind. cbn [calls]. destruct (val (m t)); reflexivity. Qed.

Lemma auth_counter_blind (w : World) (c : Ctx) (t : float) :
  val (auth w c t) = val (auth w c 0) /\ tokens (auth w c t) = t.
Proof.
  auth_cases; split; reflexivity.
Qed.

Lemma handle_tokens (w : World) (h : Handler) (ps : Params) (c : Ctx) (t : float) :
  counter_free h = true -> tokens (handle w h ps c t) = t.
Proof.
  revert c t; induction h as [| name | | | | | | | | | b | k | k | h IH metric];
    intros c t Hf; try discriminate Hf; cbn [handle]; try reflexivity.
  - unfold preflight. destruct (method (rq c)); reflexivity.
  - unfold parseBody. destruct (refused (rq c)); reflexivity.
  - apply auth_counter_blind.
  - unfold proxy, bind, fetch. cbn [val tokens].
    destruct (net w _) as [|s [j|]]; reflexivity.
  - unfold moduleEnabled. destruct (is_false _); reflexivity.
  - unfold featureEnabled. destruct (is_false _); reflexivity.
  - unfold wrapWrite, bind. cbn [tokens].
    destruct (statusCode _ <? 500); cbn [ret meterWrite bind fetch tokens];
      now apply IH.
Qed.

Lemma run_stack_tokens (w : World) (ls : list Layer) :
  forallb (fun l => counter_free (handler_of l)) ls = true ->
  forall (c : Ctx) (t : float), tokens (run_stack w ls c t) = t.
Proof.
  induction ls as [|l ls IH]; intros Hf c t; [reflexivity|].
  cbn [forallb] in Hf. apply andb_prop in Hf as [Hl Hls].
  cbn [run_stack].
  destruct (layer_match (js w) l (rq c)) as [|ps|]; [now apply IH| |reflexivity].
  rewrite tokens_bind.
  destruct (val (handle w (handler_of l) ps c t)) as [c'|resp];
    [rewrite (IH Hls) |]; now apply handle_tokens.
Qed.

Lemma behind_auth_head : behind_auth = Use [] hRateLimit :: behind_limiter.
Proof. reflexivity. Qed.

Lemma behind_limiter_counter_free :
  forallb (fun l => counter_free (handler_of l)) behind_limiter = true.
Proof. vm_compute. reflexivity. Qed.

(** Behind the auth middleware: the limiter, then layers that leave the
    counter alone. *)
Lemma behind_auth_counter (w : World) (c : Ctx) (t : float) :
  tokens (run_stack w behind_auth c t) = if (t <=? 0)%float then t else (t - 1)%float.
Proof.
  rewrite behind_auth_head, run_limiter.
  destruct (t <=? 0)%float; [reflexivity|].
  apply run_stack_tokens, behind_limiter_counter_free.
Qed.

Lemma behind_auth_spent (w : World) (c : Ctx) (t : float) :
  (t <=? 0)%float = true ->
  val (run_stack w behind_auth c t) =
  Json 429 (JObj [("message", JStr "Too many requests"); ("requestId", JStr (id c))]).
Proof.
  intros H. rewrite behind_auth_head, run_limiter, H. reflexivity.
Qed.

(** What serving a request does to the counter. *)
Lemma serve_counter (w : World) (r : Request) (t : float) :
  tokens (serve w r t) = if admitted w r t then (t - 1)%float else t.
Proof.
  rewrite serve_to_auth. unfold admitted, passes_auth, reaches_auth.
  destruct (method r); cbn [method_eqb negb andb]; try reflexivity;
    (destruct (refused r); cbn [andb]; [reflexivity|]);
    (rewrite tokens_bind;
     destruct (auth_counter_blind w (identified w r) t) as [Hv Ht];
     rewrite Hv, Ht;
     destruct (val (auth w (identified w r) 0)) as [c'|resp]; [|reflexivity];
     rewrite behind_auth_counter;
     destruct (t <=? 0)%float; reflexivity).
Qed.

(** A request that reaches the limiter when nothing is left. *)
Lemma serve_rate_limited (w : World) (r : Request) (t : float) :
  passes_auth w r = true -> (t <=? 0)%float = true ->
  val (serve w r t) =
  Json 429 (JObj [("message", JStr "Too many requests");
                  ("requestId", JStr (request_id w r))]).
Proof.
  unfold passes_auth. intros Hp Ht. apply andb_prop in Hp as [Hr Hp].
  rewrite serve_through_auth by exact Hr. rewrite val_bind.
  destruct (auth_counter_blind w (identified w r) t) as [Hv Htok].
  rewrite Htok.
  destruct (val (auth w (identified w r) t)) as [c'|resp] eqn:E.
  - rewrite (behind_auth_spent w c' t Ht).
    now rewrite (auth_keeps_id _ _ _ _ E).
  - rewrite <- Hv in Hp. discriminate Hp.
Qed.

(** Doubles: what the comparisons with zero say of each other. *)
Lemma zero_is_spent (x : float) : (x =? 0)%float = true -> (x <=? 0)%float = true.
Proof.
  rewrite eqb_spec, leb_spec. unfold SFeqb, SFleb.
  destruct (SFcompare _ _) as [[]|]; congruence.
Qed.

Lemma zero_is_not_negative (x : float) :
  (x =? 0)%float = true -> (x <? 0)%float = false.
Proof.
  rewrite eqb_spec, ltb_spec. unfold SFeqb, SFltb.
  destruct (SFcompare _ _) as [[]|]; congruence.
Qed.

Lemma unspent_is_not_negative (x : float) :
  (x <=? 0)%float = false -> (x <? 0)%float = false.
Proof.
  rewrite ltb_spec, leb_spec. unfold SFltb, SFleb.
  destruct (SFcompare _ _) as [[]|]; congruence.
Qed.

Lemma counts_down_not_negative (x : float) (n : nat) :
  counts_down x n = true -> (x <? 0)%float = false.
Proof.
  destruct n as [|k]; cbn [counts_down].
  - apply zero_is_not_negative.
  - intros H. apply andb_prop in H as [H _]. apply negb_true_iff in H.
    now apply unspent_is_not_negative.
Qed.

Lemma counts_down_spent (x : float) (n : nat) :
  counts_down x n = true -> (x <=? 0)%float = match n with O => true | S _ => false end.
Proof.
  destruct n as [|k]; cbn [counts_down].
  - apply zero_is_spent.
  - intros H. apply andb_prop in H as [H _]. now apply negb_true_iff in H.
Qed.

(** A value counts down in one number of steps only. *)
Lemma counts_down_unique (x : float) (n m : nat) :
  counts_down x n = true -> counts_down x m = true -> n = m.
Proof.
  revert x m. induction n as [|n IH]; intros x [|m] Hn Hm; [reflexivity| | |].
  - apply counts_down_spent in Hn, Hm. congruence.
  - apply counts_down_spent in Hn, Hm. congruence.
  - cbn [counts_down] in Hn, Hm.
    apply andb_prop in Hn as [_ Hn]. apply andb_prop in Hm as [_ Hm].
    f_equal. exact (IH _ _ Hn Hm).
Qed.

(** Between two refills the admissions use the counter up, one unit each. *)
Lemma run_between_refills (evs : list Event) :
  forall (t : float) (n : nat),
    counts_down t n = true ->
    tick_free evs = true ->
    (admissions t evs <= n)%nat
    /\ counts_down (fst (run t evs)) (n - admissions t evs) = true.
Proof.
  induction evs as [|[w r|now] evs IH]; intros t n Hc Hf; cbn [run admissions fst].
  - rewrite Nat.sub_0_r. split; [lia | exact Hc].
  - cbn [tick_free forallb andb] in Hf. rewrite serve_counter.
    destruct (admitted w r t) eqn:Ea.
    + unfold admitted in Ea. apply andb_prop in Ea as [_ Ea].
      apply negb_true_iff in Ea.
      destruct n as [|k].
      * apply counts_down_spent in Hc. congruence.
      * cbn [counts_down] in Hc. apply andb_prop in Hc as [_ Hc].
        destruct (IH _ _ Hc Hf) as [Hle Hrest]. split; [lia|].
        replace (S k - (1 + admissions (t - 1) evs))%nat
          with (k - admissions (t - 1) evs)%nat by lia.
        exact Hrest.
    + destruct (IH _ _ Hc Hf) as [Hle Hrest]. split; [exact Hle | exact Hrest].
  - discriminate Hf.
Qed.

(** A tick forgets what came before it. *)
Lemma run_tick (before : list Event) :
  forall (t : float) (now : Env) (after : list Event),
    fst (run t (before ++ Tick now :: after)) = fst (run (ceiling now) after)
    /\ snd (run t (before ++ Tick now :: after)) =
       (snd (run t before) ++ snd (run (ceiling now) after))%list.
Proof.
  induction before as [|[w r|now'] before IH]; intros t now after;
    cbn [app run fst snd].
  - split; reflexivity.
  - destruct (IH (tokens (serve w r t)) now after) as [H1 H2].
    split; [exact H1 | now rewrite H2].
  - apply IH.
Qed.

(** The whole numbers count down in as many steps as they say (here: up to
    a thousand). *)
Lemma whole_numbers_count_down (n : nat) :
  (n <= 1000)%nat -> counts_down (whole n) n = true.
Proof.
  intros H.
  assert (Hall : forallb (fun k => counts_down (whole k) k) (seq 0 1001) = true)
    by (vm_compute; reflexivity).
  rewrite forallb_forall in Hall. apply Hall. apply in_seq. lia.
Qed.

(** A fraction, a negative number and NaN count down in no number of
    steps. *)
Lemma no_count_down (n : nat) :
  counts_down 1.5 n = false
  /\ counts_down (-1) n = false
  /\ counts_down nan n = false.
Proof.
  split; [|split].
  - destruct n as [|[|[|n]]]; reflexivity.
  - destruct n; reflexivity.
  - induction n as [|n IH]; [reflexivity|].
    cbn [counts_down]. replace (nan - 1)%float with nan by reflexivity.
    now rewrite IH.
Qed.

(** C8, as amended.  Let the ceiling of the configuration be a value that
    counts down to zero in [N] steps of one, as a whole number [N] does;
    with nothing configured it is 200 and [N] is 200.  A request that
    reaches the limiter when the counter is not at zero or below takes one
    unit; a request that reaches it with the counter at zero or below is
    answered 429 [{message: "Too many requests", requestId}] and leaves the
    counter as it is; any other request leaves it too.  Between two refills
    the limiter admits at most [N] requests, the counter is never negative,
    and what is left of it counts down in [N] minus the admissions so far;
    as long as there were fewer than [N] admissions the next request that
    reaches the limiter is admitted, and after [N] admissions it is answered
    429.  A tick sets the counter to the ceiling the environment holds at
    that moment, whatever came before: counter and answers from there on are
    those of a process started on that ceiling. *)
Theorem C8_admission_counter (boot_env : Env) (N : nat)
    (Hceiling : counts_down (ceiling boot_env) N = true) :
  (RATE_TOKENS boot_env = None -> N = 200%nat)
  /\ (forall w r t, admitted w r t = true -> tokens (serve w r t) = (t - 1)%float)
  /\ (forall w r t, admitted w r t = false -> tokens (serve w r t) = t)
  /\ (forall w r t,
         passes_auth w r = true -> (t <=? 0)%float = true ->
         val (serve w r t) =
         Json 429 (JObj [("message", JStr "Too many requests");
                         ("requestId", JStr (request_id w r))])
         /\ tokens (serve w r t) = t)
  /\ (forall evs,
         tick_free evs = true ->
         (admissions (TOKENS0 boot_env) evs <= N)%nat
         /\ (fst (run (TOKENS0 boot_env) evs) <? 0)%float = false
         /\ counts_down (fst (run (TOKENS0 boot_env) evs))
                        (N - admissions (TOKENS0 boot_env) evs) = true)
  /\ (forall evs w r,
         tick_free evs = true ->
         (admissions (TOKENS0 boot_env) evs < N)%nat ->
         passes_auth w r = true ->
         admitted w r (fst (run (TOKENS0 boot_env) evs)) = true)
  /\ (forall evs w r,
         tick_free evs = true ->
         admissions (TOKENS0 boot_env) evs = N ->
         passes_auth w r = true ->
         val (serve w r (fst (run (TOKENS0 boot_env) evs))) =
         Json 429 (JObj [("message", JStr "Too many requests");
                         ("requestId", JStr (request_id w r))]))
  /\ (forall t before now after,
         fst (run t (before ++ Tick now :: after)) = fst (run (TOKENS0 now) after)
         /\ snd (run t (before ++ Tick now :: after)) =
            (snd (run t before) ++ snd (run (TOKENS0 now) after))%list).
Proof.
  repeat apply conj.
  - intros Hnone. unfold ceiling in Hceiling. rewrite Hnone in Hceiling.
    apply (counts_down_unique 200%float); [exact Hceiling | vm_compute; reflexivity].
  - intros w r t H. now rewrite serve_counter, H.
  - intros w r t H. now rewrite serve_counter, H.
  - intros w r t Hp Ht. split; [now apply serve_rate_limited|].
    rewrite serve_counter. unfold admitted.
    rewrite Ht. cbn [negb]. now rewrite andb_false_r.
  - intros evs Hf.
    destruct (run_between_refills evs _ _ Hceiling Hf) as [Hle H].
    split; [exact Hle|]. split; [exact (counts_down_not_negative _ _ H) | exact H].
  - intros evs w r Hf Hlt Hp. unfold admitted. rewrite Hp. cbn [andb].
    unfold TOKENS0 in *.
    destruct (run_between_refills evs _ _ Hceiling Hf) as [_ H].
    apply counts_down_spent in H.
    destruct (N - admissions (ceiling boot_env) evs)%nat eqn:E; [lia|].
    now rewrite H.
  - intros evs w r Hf Heq Hp. apply serve_rate_limited; [exact Hp|].
    unfold TOKENS0 in *.
    destruct (run_between_refills evs _ _ Hceiling Hf) as [_ H].
    apply counts_down_spent in H.
    rewrite Heq, Nat.sub_diag in H. exact H.
  - intros t before now after. apply run_tick.
Qed.

(** C8 at work: a ceiling of 200 on the defaults; with a ceiling of 2, the
    third request of an interval is answered 429. *)
Lemma C8_witness :
  admitted demo (request GET "/healthz" None) (fst (run (TOKENS0 no_env) [])) = true
  /\ val (serve demo (request GET "/healthz" None)
             (fst (run (TOKENS0 small_env)
                       [Arrive demo (request GET "/healthz" None);
                        Arrive demo (request GET "/api/v1/me" (Some "Bearer good"))]))) =
     Json 429 (JObj [("message", JStr "Too many requests");
                     ("requestId", JStr "req-1")]).
Proof.
  split.
  - destruct (C8_admission_counter no_env 200 eq_refl)
      as (_ & _ & _ & _ & _ & Hfewer & _).
    apply (Hfewer [] demo (request GET "/healthz" None));
      [reflexivity | cbn; lia | vm_compute; reflexivity].
  - destruct (C8_admission_counter small_env 2 eq_refl)
      as (_ & _ & _ & _ & _ & _ & Hfull & _).
    apply (Hfull [Arrive demo (request GET "/healthz" None);
                  Arrive demo (request GET "/api/v1/me" (Some "Bearer good"))]
                 demo (request GET "/healthz" None)); vm_compute; reflexivity.
Defined.

(** C8 as stated fails.  With RATE_TOKENS=1.5 two requests are admitted and
    the counter ends below zero, at -0.5.  With a RATE_TOKENS that spells no
    number the counter is NaN, which is not [<= 0]: no request is ever
    answered 429. *)
Lemma C8_counterexample :
  TOKENS0 fractional_env = 1.5%float
  /\ run (TOKENS0 fractional_env)
         [Arrive demo (request GET "/healthz" None);
          Arrive demo (request GET "/healthz" None)] =
     ((-0.5)%float,
      [Json 200 (JObj [("status", JStr "ok"); ("requestId", JStr "req-1")]);
       Json 200 (JObj [("status", JStr "ok"); ("requestId", JStr "req-1")])])
  /\ ((-0.5) <? 0)%float = true
  /\ (forall n,
         run (TOKENS0 unreadable_env)
             (repeat (Arrive demo (request GET "/healthz" None)) n) =
         (nan,
          repeat (Json 200 (JObj [("status", JStr "ok");
                                  ("requestId", JStr "req-1")])) n)).
Proof.
  split; [reflexivity|]. split; [vm_compute; reflexivity|].
  split; [vm_compute; reflexivity|].
  intros n. change (TOKENS0 unreadable_env) with nan.
  induction n as [|n IH]; [reflexivity|].
  cbn [repeat run fst snd].
  replace (serve demo (request GET "/healthz" None) nan)
    with {| val := Json 200 (JObj [("status", JStr "ok"); ("requestId", JStr "req-1")]);
            tokens := nan; calls := [] |} by (vm_compute; reflexivity).
  cbn [tokens val]. now rewrite IH.
Qed.

(* ------------------------------------------------------------------ *)
(** ** Metering *)

Lemma differ_sound (l1 l2 : list ascii) :
  differ l1 l2 = true -> forall x y, (l1 ++ x)%list <> (l2 ++ y)%list.
Proof.
  revert l2; induction l1 as [|a l1 IH]; intros [|b l2] H x y;
    try discriminate H.
  cbn in H. destruct (Ascii.eqb a b) eqn:E.
  - intros [= _ Heq]. exact (IH _ H _ _ Heq).
  - intros [= Hab _]. apply Ascii.eqb_neq in E. contradiction.
Qed.

Lemma chars_app (a b : string) : chars (a ++ b) = (chars a ++ chars b)%list.
Proof.
  unfold chars. induction a as [|x a IH]; simpl; [reflexivity | now rewrite IH].
Qed.

(** Texts whose endings differ at some position are different texts. *)
Lemma suffix_clash (s1 s2 : string) :
  differ (rev (chars s1)) (rev (chars s2)) = true ->
  forall x y, x ++ s1 <> y ++ s2.
Proof.
  intros H x y E. apply (f_equal chars) in E. rewrite !chars_app in E.
  apply (f_equal (@rev ascii)) in E. rewrite !rev_app_distr in E.
  exact (differ_sound _ _ H _ _ E).
Qed.

Lemma cat_app (l1 l2 : list string) : cat (l1 ++ l2) = cat l1 ++ cat l2.
Proof.
  induction l1 as [|x l1 IH]; simpl; [reflexivity | now rewrite IH, append_assoc].
Qed.

Lemma outreq_method (rt : Runtime) (e : Env) (b : RouteBinding) (ps : Params)
    (c : Ctx) :
  o_method (outreq rt e b ps c) = verb (opts b).
Proof. unfold outreq. destruct (opts b); reflexivity. Qed.

Lemma outreq_url (rt : Runtime) (e : Env) (b : RouteBinding) (ps : Params)
    (c : Ctx) :
  o_url (outreq rt e b ps c) = url_of e b ps c.
Proof. unfold outreq. destruct (opts b); reflexivity. Qed.

Lemma apart_sound (b : RouteBinding) :
  apart_from_metering b = true ->
  forall (rt : Runtime) (e : Env) (ps : Params) (c : Ctx) (meter_base : string),
    ~ (o_method (outreq rt e b ps c) = POST
       /\ o_url (outreq rt e b ps c) = meter_base ++ "/usage/increment").
Proof.
  intros H rt e ps c mb [Hm Hu].
  rewrite outreq_method in Hm. rewrite outreq_url in Hu.
  unfold apart_from_metering in H. rewrite Hm in H. cbn [method_eqb negb orb] in H.
  apply andb_prop in H as [Hq Ht]. apply negb_true_iff in Hq.
  destruct (rev (dpath b)) as [|[s|n] rest] eqn:E; try discriminate Ht.
  assert (Hd : dpath b = (rev rest ++ [Lit s])%list)
    by (rewrite <- (rev_involutive (dpath b)), E; reflexivity).
  unfold url_of, render in Hu. rewrite Hq, Hd, map_app, cat_app in Hu.
  cbn [map cat] in Hu. rewrite !append_empty in Hu.
  rewrite <- append_assoc in Hu.
  exact (suffix_clash _ _ Ht _ _ Hu).
Qed.

Lemma call_shape_mono (w : World) (bs bs' : list RouteBinding) (c : Call) :
  incl bs bs' -> call_shape w bs c -> call_shape w bs' c.
Proof.
  intros Hi. unfold call_shape. destruct (fst c); auto.
  intros [Hin He]. split; [apply Hi, Hin | exact He].
Qed.

Lemma handle_calls (w : World) (h : Handler) (ps : Params) (c : Ctx) (t : float) :
  plain h = true ->
  Forall (call_shape w match h with hProxy b => [b] | _ => [] end)
         (calls (handle w h ps c t)).
Proof.
  destruct h; intros Hp; try discriminate Hp; cbn [handle];
    try (cbn; constructor; fail).
  - unfold preflight. destruct (method (rq c)); constructor.
  - unfold parseBody. destruct (refused (rq c)); constructor.
  - auth_cases; cbn; repeat constructor.
  - unfold rateLimit. destruct (t <=? 0)%float; constructor.
  - unfold readyzFull.
    cbn [mapM bind ret fetch val tokens calls app fst snd map].
    repeat constructor.
  - unfold proxy, bind, fetch. cbn [val tokens calls].
    destruct (net w _) as [|s [j|]]; cbn [ret calls app];
      (constructor; [|constructor]; split;
       [left; reflexivity | exists ps, c; reflexivity]).
  - unfold moduleEnabled. destruct (is_false _); constructor.
  - unfold featureEnabled. destruct (is_false _); constructor.
Qed.

Lemma run_stack_calls (w : World) (ls : list Layer) :
  plain_layers ls = true ->
  forall (c : Ctx) (t : float),
    Forall (call_shape w (bindings ls)) (calls (run_stack w ls c t)).
Proof.
  induction ls as [|l ls IH]; intros Hp c t; [constructor|].
  cbn [plain_layers forallb] in Hp. apply andb_prop in Hp as [Hl Hls].
  specialize (IH Hls).
  cbn [bindings flat_map]. fold (bindings ls).
  cbn [run_stack]. destruct (layer_match (js w) l (rq c)) as [|ps|].
  - eapply Forall_impl; [|apply IH].
    intros a. apply call_shape_mono, incl_appr, incl_refl.
  - rewrite calls_bind. apply Forall_app. split.
    + eapply Forall_impl; [|apply (handle_calls w _ ps c t Hl)].
      intros a. apply call_shape_mono, incl_appl, incl_refl.
    + destruct (val (handle w (handler_of l) ps c t)) as [c'|resp];
        [|constructor].
      eapply Forall_impl; [|apply IH].
      intros a. apply call_shape_mono, incl_appr, incl_refl.
  - constructor.
Qed.

Lemma stack_apart_from_metering :
  forallb apart_from_metering (bindings (tl stack)) = true.
Proof. vm_compute. reflexivity. Qed.

(** C10.  No layer of the application is built with [wrapWrite].  Serving a
    request never issues a call from [meterWrite], nor any POST to
    [METER_BASE/usage/increment] from anywhere else.  Were a handler wrapped,
    [wrapWrite] would answer what the handler answers and leave the counter
    where the handler leaves it, whatever becomes of the metering call;
    [meterWrite] itself issues that one call and returns, whatever the
    network does with it. *)
Theorem C10_no_metering :
  forallb (fun l => negb (wrapped (handler_of l))) stack = true
  /\ (forall w r t site o,
         In (site, o) (calls (serve w r t)) ->
         site <> SMeter /\ ~ metering_notification w o)
  /\ (forall w handler metric c t,
         val (wrapWrite w handler metric c t) = val (handler c t)
         /\ tokens (wrapWrite w handler metric c t) = tokens (handler c t))
  /\ (forall w tenantId metric t,
         exists o,
           meterWrite w tenantId metric t =
           {| val := tt; tokens := t; calls := [(SMeter, o)] |}
           /\ metering_notification w o).
Proof.
  split; [vm_compute; reflexivity|]. split; [|split].
  - intros w r t site o Hin.
    rewrite serve_behind_id in Hin.
    pose proof (run_stack_calls w (tl stack) plain_stack (identified w r) t) as Hall.
    rewrite Forall_forall in Hall. specialize (Hall _ Hin).
    unfold call_shape in Hall. cbn [fst snd] in Hall.
    destruct site as [| |b|].
    + split; [discriminate|]. intros [Hm _]. rewrite Hall in Hm. discriminate Hm.
    + split; [discriminate|]. intros [Hm _]. rewrite Hall in Hm. discriminate Hm.
    + split; [discriminate|]. destruct Hall as [Hb (ps & ctx & ->)].
      pose proof stack_apart_from_metering as Hs.
      rewrite forallb_forall in Hs.
      exact (apart_sound b (Hs b Hb) (js w) (boot w) ps ctx (base (boot w) METER)).
    + destruct Hall.
  - intros w handler metric c t. unfold wrapWrite, bind. cbn [val tokens].
    destruct (statusCode _ <? 500); split; reflexivity.
  - intros w tenantId metric t. eexists. split; [reflexivity|].
    split; reflexivity.
Qed.

(* ------------------------------------------------------------------ *)
(** * More of the gateway *)

(** ** Configuration and token extraction *)

(** X1.  [auth.slice(7)] after [auth.startsWith('Bearer ')] gives back exactly
    the text behind the prefix: the token of "Bearer " followed by [token] is
    [token], and a header yields a token only when it is that prefix followed
    by the token. *)
Theorem bearer_round_trip :
  (forall token, bearer ("Bearer " ++ token) = Some token)
  /\ (forall a token, bearer a = Some token -> a = "Bearer " ++ token)
  /\ (forall a, prefix "Bearer " a = false -> bearer a = None).
Proof.
  split; [|split].
  - intros token. now apply bearer_spec.
  - intros a token. apply bearer_spec.
  - intros a H. unfold bearer. now rewrite H.
Qed.

(** X2.  A base address is never the empty text: a variable that is unset or
    set to the empty text selects the built-in address, any other setting is
    taken as it is. *)
Theorem base_address_cases (e : Env) (s : Service) :
  base e s <> ""
  /\ (getenv e (base_var s) = None -> base e s = base_default s)
  /\ (getenv e (base_var s) = Some "" -> base e s = base_default s)
  /\ (forall u, getenv e (base_var s) = Some u -> u <> "" -> base e s = u).
Proof.
  unfold base, env_or. repeat split.
  - destruct (getenv e (base_var s)) as [u|].
    + destruct (String.eqb u "") eqn:E.
      * destruct s; discriminate.
      * now apply String.eqb_neq.
    + destruct s; discriminate.
  - now intros ->.
  - now intros ->.
  - intros u -> Hu. apply String.eqb_neq in Hu. now rewrite Hu.
Qed.

(* ------------------------------------------------------------------ *)
(** ** A verified request, up to the limiter *)

(** What the auth middleware does with a token that verifies. *)
Lemma auth_resolves (w : World) (c : Ctx) (t : float) (token : string) (p : Payload) :
  ~ In (path (rq c)) openPaths ->
  carries_bearer (rq c) token ->
  jwt_verify w token (secret w) = Some p ->
  auth w c t =
  {| val := Next {| rq := rq c; id := id c; user := Some (payload_json p);
                    entitlements := Some (entitlements_for w p) |};
     tokens := t;
     calls := entitlement_calls w p |}.
Proof.
  intros Hp Hb Hv. rewrite (auth_verified w c t token p Hp Hb Hv).
  unfold entitlements_for, entitlement_calls, entitlement_address.
  destruct (entitlements_url _ _ _) as [url|]; [|reflexivity].
  unfold bind, fetch, ret, plain_get. cbn [val tokens calls app].
  unfold resolved, ok.
  destruct (net w _) as [|s [j|]]; try reflexivity;
    destruct ((200 <=? s) && (s <=? 299)); reflexivity.
Qed.

(** Serving a request whose token verifies: the auth middleware, then the
    layers behind it. *)
Lemma serve_verified (w : World) (r : Request) (t : float)
    (token : string) (p : Payload) :
  reaches_auth r = true ->
  ~ In (path r) openPaths ->
  carries_bearer r token ->
  jwt_verify w token (secret w) = Some p ->
  let c' := {| rq := r; id := request_id w r; user := Some (payload_json p);
               entitlements := Some (entitlements_for w p) |} in
  serve w r t =
  {| val := val (run_stack w behind_auth c' t);
     tokens := tokens (run_stack w behind_auth c' t);
     calls := (entitlement_calls w p ++ calls (run_stack w behind_auth c' t))%list |}.
Proof.
  intros Hr Hp Hb Hv c'. rewrite serve_through_auth by exact Hr.
  apply bind_next. apply (auth_resolves w (identified w r) t token p Hp Hb Hv).
Qed.

(** Serving a request to an open path. *)
Lemma serve_open (w : World) (r : Request) (t : float) :
  reaches_auth r = true ->
  In (path r) openPaths ->
  serve w r t = run_stack w behind_auth (identified w r) t.
Proof.
  intros Hr Hp. rewrite serve_through_auth by exact Hr.
  rewrite (bind_next _ _ _ t t (identified w r) []) by (apply auth_open; exact Hp).
  apply res_eta.
Qed.

Lemma get_reaches_auth (r : Request) :
  method r = GET -> refused r = None -> reaches_auth r = true.
Proof.
  intros Hm Hb. apply reaches_auth_spec. rewrite Hm. split; [discriminate | exact Hb].
Qed.

(* ------------------------------------------------------------------ *)
(** ** The routes that do not proxy *)

Lemma readyzFull_report (w : World) (c : Ctx) (t : float) :
  readyzFull w c t =
  {| val :=
       Done (Json (if forallb (fun kv => probe_ok w (snd kv)) probed then 200 else 503)
                  (JObj [("ready", JBool (forallb (fun kv => probe_ok w (snd kv)) probed));
                         ("status",
                          JObj (map (fun kv => (fst kv, JBool (probe_ok w (snd kv))))
                                    probed))]));
     tokens := t;
     calls := map (fun kv => (SProbe, probe w (snd kv))) probed |}.
Proof. reflexivity. Qed.

(** GET /readyz/full behind the auth middleware. *)
Lemma readyz_full_behind_auth (w : World) (c : Ctx) (t : float) :
  method (rq c) = GET ->
  segs (rq c) = ["readyz"; "full"] ->
  (t <=? 0)%float = false ->
  run_stack w behind_auth c t =
  {| val :=
       Json (if forallb (fun kv => probe_ok w (snd kv)) probed then 200 else 503)
            (JObj [("ready", JBool (forallb (fun kv => probe_ok w (snd kv)) probed));
                   ("status",
                    JObj (map (fun kv => (fst kv, JBool (probe_ok w (snd kv))))
                              probed))]);
     tokens := (t - 1)%float;
     calls := map (fun kv => (SProbe, probe w (snd kv))) probed |}.
Proof.
  intros Hget Hpath Ht.
  rewrite behind_auth_layers. generalize (skipn 12 stack) as later; intros later.
  rewrite run_limiter, Ht.
  do 2 (rewrite run_skip
          by (unfold layer_match, match_route; rewrite Hpath; reflexivity)).
  rewrite (run_hit w _ _ _ _ [])
    by (cbn [layer_match]; rewrite Hget, Hpath; reflexivity).
  cbn [handler_of handle].
  apply bind_done. apply readyzFull_report.
Qed.

(** X5.  GET /readyz/full is not an open path.  Without a bearer token it is
    answered 401 and probes nothing.  With a token that verifies and the
    limiter letting it through, it sends, after the entitlement call (if
    there is an address to call), five GET probes to [<base>/ready] of org,
    forms, submissions, discounts and staff in that order, the base
    addresses being those of the environment of the moment; it answers 200
    exactly when every probe came back with a success status and 503
    otherwise, in both cases with [{ready, status}] holding one boolean per
    service, a probe that throws counting as [false]. *)
Theorem readyz_full_report (w : World) (r : Request) (t : float)
    (Hget : method r = GET)
    (Hpath : segs r = ["readyz"; "full"])
    (Hbody : refused r = None) :
  ((forall token, ~ carries_bearer r token) ->
   serve w r t =
   {| val := Json 401 (JObj [("message", JStr "Missing token");
                             ("requestId", JStr (request_id w r))]);
      tokens := t; calls := [] |})
  /\ (forall token p,
         carries_bearer r token ->
         jwt_verify w token (secret w) = Some p ->
         (t <=? 0)%float = false ->
         let all := forallb (fun kv => probe_ok w (snd kv)) probed in
         serve w r t =
         {| val :=
              Json (if all then 200 else 503)
                   (JObj [("ready", JBool all);
                          ("status",
                           JObj (map (fun kv => (fst kv, JBool (probe_ok w (snd kv))))
                                     probed))]);
            tokens := (t - 1)%float;
            calls :=
              (entitlement_calls w p
               ++ map (fun kv =>
                         (SProbe,
                          {| o_method := GET;
                             o_url := base (env w) (snd kv) ++ "/ready";
                             o_headers := []; o_body := NoBody |})) probed)%list |}
         /\ (all = true <->
             forall s, In s [ORG; FORMS; SUBMISSIONS; DISCOUNTS; STAFF] ->
                       exists st d,
                         net w {| o_method := GET;
                                  o_url := base (env w) s ++ "/ready";
                                  o_headers := []; o_body := NoBody |} = Reply st d
                         /\ 200 <= st <= 299)).
Proof.
  assert (Hprotected : ~ In (path r) openPaths)
    by (unfold path; rewrite Hpath; intros [H|[H|[H|[]]]]; discriminate H).
  assert (Hr : reaches_auth r = true) by now apply get_reaches_auth.
  split.
  - intros Hno. rewrite serve_through_auth by exact Hr.
    apply bind_done. apply auth_missing; assumption.
  - intros token p Hb Hv Ht all. split.
    + rewrite (serve_verified w r t token p Hr Hprotected Hb Hv).
      rewrite readyz_full_behind_auth by assumption. reflexivity.
    + subst all. unfold probed. cbn [forallb snd]. rewrite !andb_true_iff.
      assert (Hok : forall s, probe_ok w s = true <->
                exists st d,
                  net w {| o_method := GET; o_url := base (env w) s ++ "/ready";
                           o_headers := []; o_body := NoBody |} = Reply st d
                  /\ 200 <= st <= 299).
      { intros s. unfold probe_ok, probe.
        destruct (net w _) as [|st d].
        - split; [discriminate | intros (st & d & H & _); discriminate H].
        - rewrite andb_true_iff, !Z.leb_le. split.
          + intros H. now exists st, d.
          + intros (st' & d' & [= <- <-] & H). exact H. }
      split.
      * intros (H1 & H2 & H3 & H4 & H5 & _) s [<-|[<-|[<-|[<-|[<-|[]]]]]];
          now apply Hok.
      * intros H. repeat split; apply Hok, H; cbn; auto 6.
Qed.

(** X5 at work: four services ready, staff unreachable. *)
Lemma readyz_full_report_witness :
  val (serve demo (request GET "/readyz/full" (Some "Bearer good")) 200) =
  Json 503 (JObj [("ready", JBool false);
                  ("status", JObj [("org", JBool true); ("forms", JBool true);
                                   ("submissions", JBool true);
                                   ("discounts", JBool true);
                                   ("staff", JBool false)])]).
Proof.
  refine (f_equal val
            (proj1 (proj2 (readyz_full_report demo
                             (request GET "/readyz/full" (Some "Bearer good")) 200
                             eq_refl eq_refl eq_refl)
                          "good"
                          (PObj [("id", JStr "u1"); ("scopes", JObj [("orgId", JStr "acme")])])
                          _ _ _))).
  - split; [reflexivity | discriminate].
  - reflexivity.
  - reflexivity.
Defined.

(** X6.  The rate limiter stands behind the auth middleware: a request with
    a token that verifies, arriving when the counter is zero or below, is
    answered 429 only after its entitlement call has been made; the counter
    stays as it is. *)
Theorem rate_limited_after_entitlement_call (w : World) (r : Request) (t : float)
    (token : string) (p : Payload)
    (Hreach : method r <> OPTIONS /\ refused r = None)
    (Hprotected : ~ In (path r) openPaths)
    (Hbearer : carries_bearer r token)
    (Hverified : jwt_verify w token (secret w) = Some p)
    (Hempty : (t <=? 0)%float = true) :
  serve w r t =
  {| val := Json 429 (JObj [("message", JStr "Too many requests");
                            ("requestId", JStr (request_id w r))]);
     tokens := t;
     calls := entitlement_calls w p |}
  /\ (forall url,
         entitlements_url (js w) (env w) (tenant_of (js w) (Some (payload_json p)))
         = Some url ->
         calls (serve w r t) =
         [(SEntitlements,
           {| o_method := GET; o_url := url; o_headers := []; o_body := NoBody |})]).
Proof.
  assert (Hr : reaches_auth r = true) by now apply reaches_auth_spec.
  assert (E : serve w r t =
              {| val := Json 429 (JObj [("message", JStr "Too many requests");
                                        ("requestId", JStr (request_id w r))]);
                 tokens := t;
                 calls := entitlement_calls w p |}).
  { rewrite (serve_verified w r t token p Hr Hprotected Hbearer Hverified).
    rewrite behind_auth_head, run_limiter, Hempty.
    cbn [answered val tokens calls id]. now rewrite app_nil_r. }
  split; [exact E|].
  intros url Hurl. rewrite E. cbn [calls].
  unfold entitlement_calls, entitlement_address. now rewrite Hurl.
Qed.

Lemma rate_limited_after_entitlement_call_witness :
  calls (serve demo (request GET "/api/org/7" (Some "Bearer good")) 0) =
  [(SEntitlements,
    {| o_method := GET; o_url := "http://localhost:7002/entitlements/acme";
       o_headers := []; o_body := NoBody |})].
Proof.
  refine (proj2 (rate_limited_after_entitlement_call demo
                   (request GET "/api/org/7" (Some "Bearer good")) 0 "good"
                   (PObj [("id", JStr "u1"); ("scopes", JObj [("orgId", JStr "acme")])])
                   _ _ _ _ _) _ _).
  - split; [discriminate | reflexivity].
  - intros [H|[H|[H|[]]]]; discriminate H.
  - split; [reflexivity | discriminate].
  - reflexivity.
  - reflexivity.
  - reflexivity.
Defined.

(** GET /api/v1/me behind the auth middleware. *)
Lemma me_behind_auth (w : World) (c : Ctx) (t : float) :
  method (rq c) = GET ->
  segs (rq c) = ["api"; "v1"; "me"] ->
  (t <=? 0)%float = false ->
  run_stack w behind_auth c t =
  {| val := Json 200 (JObj [("user", or_else (user c) JNull);
                            ("entitlements", or_else (entitlements c) JNull);
                            ("requestId", JStr (id c))]);
     tokens := (t - 1)%float; calls := [] |}.
Proof.
  intros Hget Hpath Ht.
  rewrite behind_auth_layers. generalize (skipn 12 stack) as later; intros later.
  rewrite run_limiter, Ht.
  do 3 (rewrite run_skip
          by (unfold layer_match, match_route; rewrite Hpath; reflexivity)).
  rewrite (run_hit w _ _ _ _ [])
    by (cbn [layer_match]; rewrite Hget, Hpath; reflexivity).
  reflexivity.
Qed.

(** X7.  GET /api/v1/me of a request whose token verifies, let through by
    the limiter, answers 200 with the decoded principal, the entitlements as
    the auth middleware resolved them (the body the entitlement service sent
    with a success status, the empty set otherwise), and the requestId; a
    principal or an entitlement set that is falsy is shown as [null].  The
    entitlement call, if there is an address to call, is the only call
    made. *)
Theorem me_echoes_the_context (w : World) (r : Request) (t : float)
    (token : string) (p : Payload)
    (Hget : method r = GET)
    (Hpath : segs r = ["api"; "v1"; "me"])
    (Hbody : refused r = None)
    (Hbearer : carries_bearer r token)
    (Hverified : jwt_verify w token (secret w) = Some p)
    (Hcapacity : (t <=? 0)%float = false) :
  serve w r t =
  {| val :=
       Json 200 (JObj [("user", or_else (Some (payload_json p)) JNull);
                       ("entitlements", or_else (Some (entitlements_for w p)) JNull);
                       ("requestId", JStr (request_id w r))]);
     tokens := (t - 1)%float;
     calls := entitlement_calls w p |}.
Proof.
  assert (Hprotected : ~ In (path r) openPaths)
    by (unfold path; rewrite Hpath; intros [H|[H|[H|[]]]]; discriminate H).
  assert (Hr : reaches_auth r = true) by now apply get_reaches_auth.
  rewrite (serve_verified w r t token p Hr Hprotected Hbearer Hverified).
  rewrite me_behind_auth by assumption.
  cbn [val tokens calls user entitlements id]. now rewrite app_nil_r.
Qed.

Lemma me_echoes_the_context_witness :
  serve demo (request GET "/api/v1/me" (Some "Bearer solo")) 200 =
  {| val :=
       Json 200 (JObj [("user", JStr "solo");
                       ("entitlements",
                        JObj [("modules", JObj []); ("features", JObj [])]);
                       ("requestId", JStr "req-1")]);
     tokens := 199;
     calls := [(SEntitlements,
                {| o_method := GET;
                   o_url := "http://localhost:7002/entitlements/default";
                   o_headers := []; o_body := NoBody |})] |}.
Proof.
  refine (me_echoes_the_context demo
            (request GET "/api/v1/me" (Some "Bearer solo")) 200
            "solo" (PStr "solo") eq_refl eq_refl eq_refl _ _ _).
  - split; [reflexivity | discriminate].
  - reflexivity.
  - reflexivity.
Defined.

(* ------------------------------------------------------------------ *)
(** ** Paths no layer knows *)

Lemma rooted_no_match (rt : Runtime) (roots : list string) (l : Layer)
    (r : Request) (s : string) (rest : list string) :
  rooted roots l = true ->
  segs r = s :: rest ->
  ~ In (lower s) roots ->
  layer_match rt l r = Miss.
Proof.
  intros Hr Hs Hn.
  assert (Hx : forall x, includes (lower x) roots = true -> same_literal x s = false).
  { intros x Hx. apply String.eqb_neq. intros E. rewrite E in Hx.
    now apply includes_In in Hx. }
  destruct l as [[|x mount] h | m [|[x|n] pattern] h]; try discriminate Hr;
    cbn [layer_match rooted] in *; rewrite Hs.
  - cbn [match_mount]. now rewrite (Hx x Hr).
  - unfold match_route. cbn [match_path]. now rewrite (Hx x Hr).
Qed.

Lemma run_unrooted (w : World) (roots : list string) (ls : list Layer)
    (c : Ctx) (t : float) (s : string) (rest : list string) :
  forallb (rooted roots) ls = true ->
  segs (rq c) = s :: rest ->
  ~ In (lower s) roots ->
  run_stack w ls c t = ret NotFound t.
Proof.
  intros Hr Hs Hn. induction ls as [|l ls IH]; [reflexivity|].
  cbn [forallb] in Hr. apply andb_prop in Hr as [Hl Hls].
  rewrite run_skip by (apply (rooted_no_match _ roots l _ s rest); assumption).
  now apply IH.
Qed.

Lemma behind_limiter_rooted :
  forallb (rooted ["healthz"; "readyz"; "api"]) behind_limiter = true.
Proof. vm_compute. reflexivity. Qed.

(** X8.  Every route and every guard of the application lives under
    /healthz, /readyz or /api, in whatever case these are written.  A
    request to any other path that gets past the auth middleware is counted
    by the limiter and then falls through every layer to the framework's
    404, without a guard or a proxy call; /auth/login, which the auth
    middleware lets through whatever the headers are, is such a path. *)
Theorem unrouted_paths_fall_through (w : World) (r : Request) (t : float)
    (s : string) (rest : list string)
    (Hpath : segs r = s :: rest)
    (Hroot : ~ In (lower s) ["healthz"; "readyz"; "api"])
    (Hcapacity : (t <=? 0)%float = false) :
  (forall c, rq c = r ->
             run_stack w behind_auth c t =
             {| val := NotFound; tokens := (t - 1)%float; calls := [] |})
  /\ (passes_auth w r = true ->
      val (serve w r t) = NotFound /\ tokens (serve w r t) = (t - 1)%float)
  /\ (segs r = ["auth"; "login"] ->
      method r <> OPTIONS -> refused r = None ->
      serve w r t = {| val := NotFound; tokens := (t - 1)%float; calls := [] |}).
Proof.
  assert (Hbehind : forall c, rq c = r ->
            run_stack w behind_auth c t =
            {| val := NotFound; tokens := (t - 1)%float; calls := [] |}).
  { intros c Hc. rewrite behind_auth_head, run_limiter, Hcapacity.
    apply (run_unrooted w ["healthz"; "readyz"; "api"] behind_limiter c (t - 1) s rest).
    - apply behind_limiter_rooted.
    - now rewrite Hc.
    - exact Hroot. }
  split; [exact Hbehind|]. split.
  - intros Hp. unfold passes_auth in Hp. apply andb_prop in Hp as [Hr Hp].
    rewrite serve_through_auth by exact Hr. rewrite val_bind, tokens_bind.
    destruct (auth_counter_blind w (identified w r) t) as [Hv Ht].
    rewrite <- Hv in Hp. rewrite Ht.
    destruct (val (auth w (identified w r) t)) as [c'|resp] eqn:E;
      [|discriminate Hp].
    rewrite (Hbehind c' (auth_keeps_request _ _ _ _ E)). split; reflexivity.
  - intros Hlogin Hm Hb.
    rewrite serve_open.
    + now apply Hbehind.
    + apply reaches_auth_spec. now split.
    + unfold path. rewrite Hlogin. right; right; left; reflexivity.
Qed.

Lemma unrouted_paths_fall_through_witness :
  serve demo (request POST "/auth/login" None) 200 =
  {| val := NotFound; tokens := 199; calls := [] |}.
Proof.
  refine (proj2 (proj2 (unrouted_paths_fall_through demo
                          (request POST "/auth/login" None) 200
                          "auth" ["login"] eq_refl _ _)) eq_refl _ eq_refl).
  - intros [H|[H|[H|[]]]]; discriminate H.
  - reflexivity.
  - discriminate.
Defined.

(* ------------------------------------------------------------------ *)
(** ** Guards and routes, in the order they are registered *)

Lemma run_first_hit (w : World) (ls : list Layer) (c : Ctx) (t : float) :
  run_stack w ls c t =
  match first_hit (js w) ls (rq c) with
  | Nowhere => ret NotFound t
  | Undecodable => ret (Lib 400) t
  | At h ps rest =>
      (let* s := handle w h ps c in
       match s with
       | Next c' => run_stack w rest c'
       | Done resp => ret resp
       end) t
  end.
Proof.
  induction ls as [|l ls IH]; [reflexivity|].
  cbn [run_stack first_hit].
  destruct (layer_match (js w) l (rq c)); [exact IH | reflexivity | reflexivity].
Qed.

(** X9.  The guards of /api/i18n, /api/webhooks and /api/schedules are
    registered ahead of the routes of their groups: for any verb and any
    path under such a prefix, when the feature is switched off the request
    that got past the limiter is answered 403 "Feature disabled: <flag>" and
    no call is made. *)
Theorem feature_guards_deny_before_dispatch (w : World) (c : Ctx) (t : float)
    (group flag : string) (rest : list string)
    (Hgroup : In (group, flag)
                 [("i18n", "i18n"); ("webhooks", "integrationHub");
                  ("schedules", "exportScheduler")])
    (Hpath : segs (rq c) = "api" :: group :: rest)
    (Hoff : get (js w) flag (get (js w) "features" (entitlements c)) = Some (JBool false))
    (Hcapacity : (t <=? 0)%float = false) :
  run_stack w behind_auth c t =
  {| val := Json 403 (JObj [("message", JStr ("Feature disabled: " ++ flag))]);
     tokens := (t - 1)%float; calls := [] |}.
Proof.
  rewrite behind_auth_head, run_limiter, Hcapacity.
  rewrite run_first_hit.
  assert (Hhit : exists later,
             first_hit (js w) behind_limiter (rq c) = At (hFeature flag) [] later).
  { destruct c as [[m ss hid ha q rf bd] i u e]. cbn [rq segs] in *. subst ss.
    destruct Hgroup as [[= <- <-]|[[= <- <-]|[[= <- <-]|[]]]];
      eexists; vm_compute; reflexivity. }
  destruct Hhit as [later ->].
  cbn [handle]. apply bind_done. rewrite featureEnabled_spec, Hoff. reflexivity.
Qed.

Lemma feature_guards_deny_before_dispatch_witness :
  run_stack demo behind_auth
    {| rq := request DELETE "/api/webhooks/42" None; id := "req-1";
       user := None;
       entitlements := Some (JObj [("features", JObj [("integrationHub", JBool false)])]) |}
    3 =
  {| val := Json 403 (JObj [("message", JStr "Feature disabled: integrationHub")]);
     tokens := 2; calls := [] |}.
Proof.
  refine (feature_guards_deny_before_dispatch demo
            {| rq := request DELETE "/api/webhooks/42" None; id := "req-1";
               user := None;
               entitlements :=
                 Some (JObj [("features", JObj [("integrationHub", JBool false)])]) |}
            3 "webhooks" "integrationHub" ["42"] _ eq_refl eq_refl eq_refl).
  right. left. reflexivity.
Defined.

Lemma outreq_ignores_entitlements (rt : Runtime) (e : Env) (b : RouteBinding)
    (ps : Params) (c : Ctx) (e' : value) :
  outreq rt e b ps (with_entitlements c e') = outreq rt e b ps c.
Proof. unfold outreq, url_of. destruct (opts b); reflexivity. Qed.

(** X10.  When the first layer that matches a request is a proxy route,
    [req.entitlements] plays no part: answer, counter and calls are the same
    whatever entitlements the request carries.  The routes registered ahead
    of the guards of line 428 and following are in that case. *)
Theorem proxy_first_ignores_entitlements (w : World) (c : Ctx) (t : float)
    (b : RouteBinding) (ps : Params) (later : list Layer) (e' : value)
    (Hfirst : first_hit (js w) behind_limiter (rq c) = At (hProxy b) ps later) :
  run_stack w behind_limiter (with_entitlements c e') t =
  run_stack w behind_limiter c t.
Proof.
  rewrite !run_first_hit. cbn [with_entitlements rq]. rewrite Hfirst.
  cbn [handle]. unfold bind, proxy, bind, fetch. cbn [val tokens calls].
  rewrite outreq_ignores_entitlements.
  destruct (net w (outreq (js w) (boot w) b ps c)) as [|s [j|]]; reflexivity.
Qed.

(** X10 at work: GET /api/reports/live/:businessId with the reports feature
    switched off, and with no entitlements at all. *)
Lemma proxy_first_ignores_entitlements_witness :
  run_stack demo behind_limiter
    (with_entitlements
       {| rq := request GET "/api/reports/live/7" None; id := "req-1";
          user := None; entitlements := None |}
       (Some (JObj [("features", JObj [("reports", JBool false)])]))) 5 =
  run_stack demo behind_limiter
    {| rq := request GET "/api/reports/live/7" None; id := "req-1";
       user := None; entitlements := None |} 5.
Proof.
  eapply (proxy_first_ignores_entitlements demo
            {| rq := request GET "/api/reports/live/7" None; id := "req-1";
               user := None; entitlements := None |} 5).
  vm_compute. reflexivity.
Defined.

(* ------------------------------------------------------------------ *)
(** ** The calls of one request *)

Lemma handle_next_silent (w : World) (l : Layer) (ps : Params) (c c' : Ctx) (t : float) :
  plain (handler_of l) = true ->
  auth_free l = true ->
  val (handle w (handler_of l) ps c t) = Next c' ->
  calls (handle w (handler_of l) ps c t) = [].
Proof.
  unfold auth_free.
  destruct (handler_of l); intros Hp Ha; try discriminate Hp; try discriminate Ha;
    cbn [handle]; try (cbn; discriminate); try reflexivity.
  - unfold preflight. destruct (method (rq c)); reflexivity.
  - unfold parseBody. destruct (refused (rq c)); reflexivity.
  - unfold rateLimit. destruct (t <=? 0)%float; reflexivity.
  - unfold proxy, bind, fetch. cbn [val].
    destruct (net w _) as [|s [j|]]; discriminate.
  - unfold moduleEnabled. destruct (is_false _); reflexivity.
  - unfold featureEnabled. destruct (is_false _); reflexivity.
Qed.

Lemma run_stack_answer_calls (w : World) (ls : list Layer) :
  plain_layers ls = true ->
  forallb auth_free ls = true ->
  forall (c : Ctx) (t : float),
    Outcome w (id c) (calls (run_stack w ls c t)) (val (run_stack w ls c t)).
Proof.
  induction ls as [|l ls IH]; intros Hp Ha c t; [constructor|].
  cbn [plain_layers forallb] in Hp, Ha.
  apply andb_prop in Hp as [Hl Hls]. apply andb_prop in Ha as [Hal Hals].
  specialize (IH Hls Hals).
  cbn [run_stack]. destruct (layer_match (js w) l (rq c)) as [|ps|]; [apply IH| |].
  - pose proof (handle_outcome w (handler_of l) ps c t Hl) as Hh.
    unfold bind. cbn [val tokens calls].
    destruct (val (handle w (handler_of l) ps c t)) as [c'|resp] eqn:E.
    + rewrite (handle_next_silent w l ps c c' t Hl Hal E). cbn [app].
      destruct Hh as [<- _]. apply IH.
    + cbn [ret val calls]. rewrite app_nil_r. exact Hh.
  - cbn. apply by_library. cbn. auto.
Qed.

Lemma outcome_calls (w : World) (ident : string) (cs : list Call) (resp : Response) :
  Outcome w ident cs resp ->
  cs = [] \/ (exists b o, cs = [(SProxy b, o)]) \/ (cs <> [] /\ from SProbe cs).
Proof.
  intros [s Hs | m Hm | | m | body | cs' st Hpr | cs' st Hpr | b o s j _ | b o _ | ];
    try (left; reflexivity); try (right; left; now exists b, o);
    (destruct cs' as [|x cs']; [left; reflexivity | right; right; split; [discriminate | exact Hpr]]).
Qed.

Lemma behind_auth_plain : plain_layers behind_auth = true.
Proof. vm_compute. reflexivity. Qed.

Lemma behind_auth_auth_free : forallb auth_free behind_auth = true.
Proof. vm_compute. reflexivity. Qed.

Lemma auth_call_shape (w : World) (c : Ctx) (t : float) :
  calls (auth w c t) = [] \/ exists url, calls (auth w c t) = [(SEntitlements, plain_get url)].
Proof.
  auth_cases; cbn; try (left; reflexivity). right. eexists. reflexivity.
Qed.

(** X11.  One request makes at most one entitlement call, and makes it
    first.  After it comes either nothing, or exactly one proxy call, or the
    readiness probes: a request is never forwarded to two services, and
    never both probed and forwarded. *)
Theorem call_discipline (w : World) (r : Request) (t : float) :
  exists pre cs,
    calls (serve w r t) = (pre ++ cs)%list
    /\ (pre = [] \/ exists url, pre = [(SEntitlements, plain_get url)])
    /\ (cs = []
        \/ (exists b o, cs = [(SProxy b, o)])
        \/ (cs <> [] /\ from SProbe cs)).
Proof.
  rewrite serve_to_auth.
  assert (Hlib : forall s,
             exists pre cs,
               calls (answered (Lib s) t) = (pre ++ cs)%list
               /\ (pre = [] \/ exists url, pre = [(SEntitlements, plain_get url)])
               /\ (cs = []
                   \/ (exists b o, cs = [(SProxy b, o)])
                   \/ (cs <> [] /\ from SProbe cs)))
    by (intros s; exists [], []; repeat split; left; reflexivity).
  assert (Hauth :
            exists pre cs,
              calls ((let* s := auth w (identified w r) in
                      match s with
                      | Next c' => run_stack w behind_auth c'
                      | Done resp => ret resp
                      end) t) = (pre ++ cs)%list
              /\ (pre = [] \/ exists url, pre = [(SEntitlements, plain_get url)])
              /\ (cs = []
                  \/ (exists b o, cs = [(SProxy b, o)])
                  \/ (cs <> [] /\ from SProbe cs))).
  { rewrite calls_bind.
    exists (calls (auth w (identified w r) t)).
    destruct (val (auth w (identified w r) t)) as [c'|resp] eqn:E.
    - exists (calls (run_stack w behind_auth c' (tokens (auth w (identified w r) t)))).
      split; [reflexivity|]. split; [apply auth_call_shape|].
      eapply outcome_calls.
      apply (run_stack_answer_calls w behind_auth behind_auth_plain behind_auth_auth_free).
    - exists []. split; [reflexivity|]. split; [apply auth_call_shape | left; reflexivity]. }
  destruct (method r); try exact Hauth; try apply Hlib;
    destruct (refused r); try exact Hauth; apply Hlib.
Qed.

Lemma method_eqb_eq (a b : Method) : method_eqb a b = true -> a = b.
Proof.
  destruct a, b; intros H; try discriminate H; try reflexivity.
  apply String.eqb_eq in H. now subst.
Qed.

(** A route that handles a request has the verb the request is served as. *)
Lemma serves_served_as (m m' : Method) :
  serves m m' = true -> method_eqb m HEAD = false -> m = served_as m'.
Proof.
  unfold serves. intros H Hh. apply orb_prop in H as [H|H].
  - apply method_eqb_eq in H. subst m'. destruct m; try reflexivity. discriminate Hh.
  - apply andb_prop in H as [H1 H2]. apply method_eqb_eq in H1, H2. now subst.
Qed.

Lemma handle_keeps_request (w : World) (h : Handler) (ps : Params) (c c' : Ctx) (t : float) :
  plain h = true ->
  val (handle w h ps c t) = Next c' -> rq c' = rq c.
Proof.
  destruct h; intros Hp; try discriminate Hp; cbn [handle];
    try (cbn; discriminate).
  - cbn. now intros [= <-].
  - unfold preflight. destruct (method (rq c)); cbn;
      try discriminate; now intros [= <-].
  - unfold parseBody. destruct (refused (rq c)); cbn;
      try discriminate; now intros [= <-].
  - apply auth_keeps_request.
  - unfold rateLimit. destruct (t <=? 0)%float; cbn; [discriminate | now intros [= <-]].
  - unfold proxy, bind, fetch. cbn [val].
    destruct (net w _) as [|s [j|]]; discriminate.
  - unfold moduleEnabled. destruct (is_false _); cbn; [discriminate | now intros [= <-]].
  - unfold featureEnabled. destruct (is_false _); cbn; [discriminate | now intros [= <-]].
Qed.

Lemma proxy_calls (w : World) (b : RouteBinding) (ps : Params) (c : Ctx) (t : float) :
  calls (proxy w b ps c t) = [(SProxy b, outreq (js w) (boot w) b ps c)].
Proof.
  unfold proxy, bind, fetch. cbn [val tokens calls].
  destruct (net w _) as [|s [j|]]; reflexivity.
Qed.

(** A proxy call in the trace was sent by a proxy route that matched the
    request, from the request as it came in. *)
Lemma proxy_call_origin (w : World) (ls : list Layer) :
  plain_layers ls = true ->
  forallb verb_ok ls = true ->
  forall (c : Ctx) (t : float) (b : RouteBinding) (o : OutReq),
    In (SProxy b, o) (calls (run_stack w ls c t)) ->
    exists m pattern ps c',
      In (Route m pattern (hProxy b)) ls
      /\ serves m (method (rq c)) = true
      /\ match_route (js w) pattern (segs (rq c)) = Hit ps
      /\ rq c' = rq c
      /\ o = outreq (js w) (boot w) b ps c'.
Proof.
  induction ls as [|l ls IH]; intros Hp Hv c t b o; [intros []|].
  cbn [plain_layers forallb] in Hp, Hv.
  apply andb_prop in Hp as [Hl Hls]. apply andb_prop in Hv as [Hvl Hvls].
  specialize (IH Hls Hvls).
  assert (Hrest : forall c' t',
             rq c' = rq c ->
             In (SProxy b, o) (calls (run_stack w ls c' t')) ->
             exists m pattern ps c'',
               In (Route m pattern (hProxy b)) (l :: ls)
               /\ serves m (method (rq c)) = true
               /\ match_route (js w) pattern (segs (rq c)) = Hit ps
               /\ rq c'' = rq c
               /\ o = outreq (js w) (boot w) b ps c'').
  { intros c' t' Hrq Hin.
    destruct (IH c' t' b o Hin) as (m & pattern & ps & c'' & H1 & H2 & H3 & H4 & H5).
    rewrite Hrq in H2, H3, H4. exists m, pattern, ps, c''.
    repeat split; try assumption. now right. }
  cbn [run_stack]. destruct (layer_match (js w) l (rq c)) as [|ps|] eqn:Em;
    [apply Hrest; reflexivity| |intros []].
  rewrite calls_bind. intros Hin. apply in_app_or in Hin as [Hin|Hin].
  - pose proof (handle_calls w (handler_of l) ps c t Hl) as Hall.
    rewrite Forall_forall in Hall. specialize (Hall _ Hin).
    unfold call_shape in Hall. cbn [fst snd] in Hall.
    destruct l as [mount h | m pattern h]; cbn [handler_of] in *;
      destruct h; try (destruct Hall as [Hf _]; exact (False_ind _ Hf)).
    + discriminate Hvl.
    + destruct Hall as [[<-|[]] _].
      cbn [handle] in Hin. rewrite proxy_calls in Hin.
      destruct Hin as [[= <-]|[]].
      cbn [layer_match] in Em.
      destruct (match_route (js w) pattern (segs (rq c))) as [|ps'|] eqn:Er;
        try discriminate Em.
      destruct (serves m (method (rq c))) eqn:E; [|discriminate Em].
      injection Em as ->.
      exists m, pattern, ps, c. repeat split; try assumption. now left.
  - destruct (val (handle w (handler_of l) ps c t)) as [c'|resp] eqn:E.
    + apply (Hrest c' _ (handle_keeps_request w _ ps c c' t Hl E) Hin).
    + destruct Hin.
Qed.

Lemma stack_verbs_ok : forallb verb_ok (tl stack) = true.
Proof. vm_compute. reflexivity. Qed.

Lemma serve_proxy_call_origin (w : World) (r : Request) (t : float)
    (b : RouteBinding) (o : OutReq) :
  In (SProxy b, o) (calls (serve w r t)) ->
  exists m pattern ps c',
    In (Route m pattern (hProxy b)) (tl stack)
    /\ serves m (method r) = true
    /\ match_route (js w) pattern (segs r) = Hit ps
    /\ rq c' = r
    /\ o = outreq (js w) (boot w) b ps c'.
Proof.
  rewrite serve_behind_id. intros Hin.
  exact (proxy_call_origin w (tl stack) plain_stack stack_verbs_ok
           (identified w r) t b o Hin).
Qed.

(** X12.  The call a proxy handler sends goes out with the verb the request
    is served as: GET for GET and for HEAD, which the GET routes serve as
    well, POST for POST, PATCH for PATCH, DELETE for DELETE, on every route
    of the application. *)
Theorem downstream_verb_is_inbound_verb (w : World) (r : Request) (t : float)
    (b : RouteBinding) (o : OutReq)
    (Hcall : In (SProxy b, o) (calls (serve w r t))) :
  o_method o = match method r with
               | HEAD => GET
               | m => m
               end.
Proof.
  destruct (serve_proxy_call_origin w r t b o Hcall)
    as (m & pattern & ps & c' & Hin & Hm & _ & _ & ->).
  rewrite outreq_method.
  pose proof stack_verbs_ok as Hok. rewrite forallb_forall in Hok.
  specialize (Hok _ Hin). cbn [verb_ok] in Hok.
  apply andb_prop in Hok as [Hverb Hhead].
  apply method_eqb_eq in Hverb. apply negb_true_iff in Hhead.
  rewrite <- Hverb, (serves_served_as _ _ Hm Hhead).
  destruct (method r); reflexivity.
Qed.

Lemma downstream_verb_is_inbound_verb_witness :
  o_method (plain_get "http://localhost:7003/org/7") = GET.
Proof.
  apply (downstream_verb_is_inbound_verb demo
           (request HEAD "/api/org/7" (Some "Bearer good")) 200 org_by_id).
  vm_compute. right. left. reflexivity.
Defined.

(* ------------------------------------------------------------------ *)
(** ** wrapWrite, were it used *)

(** X13.  A handler wrapped with [wrapWrite] makes the calls of the handler
    and then, exactly when the status the handler set is below 500, the one
    metering call, for the tenant inferred from [req.user] and the metric of
    the wrapper.  Around a proxy handler: a relayed reply is metered when
    its status is below 500, and a transport failure, answered 502, is not
    metered. *)
Theorem wrapWrite_meters_below_500 (w : World) (metric : string) (c : Ctx) (t : float) :
  (forall handler,
      calls (wrapWrite w handler metric c t) =
      (calls (handler c t)
       ++ if statusCode (val (handler c t)) <? 500
          then [(SMeter, metering_call w (tenant_of (js w) (user c)) metric)]
          else [])%list)
  /\ (forall b ps s j,
         net w (outreq (js w) (boot w) b ps c) = Reply s (Some j) ->
         calls (wrapWrite w (proxy w b ps) metric c t) =
         ((SProxy b, outreq (js w) (boot w) b ps c)
          :: if s <? 500
             then [(SMeter, metering_call w (tenant_of (js w) (user c)) metric)]
             else [])%list)
  /\ (forall b ps,
         transport_failure (net w (outreq (js w) (boot w) b ps c)) ->
         wrapWrite w (proxy w b ps) metric c t = proxy w b ps c t).
Proof.
  assert (Hgen : forall handler,
             calls (wrapWrite w handler metric c t) =
             (calls (handler c t)
              ++ if statusCode (val (handler c t)) <? 500
                 then [(SMeter, metering_call w (tenant_of (js w) (user c)) metric)]
                 else [])%list).
  { intros handler. unfold wrapWrite, bind. cbn [calls val tokens].
    destruct (statusCode (val (handler c t)) <? 500); cbn; now rewrite ?app_nil_r. }
  split; [exact Hgen|]. split.
  - intros b ps s j Hnet. rewrite Hgen.
    unfold proxy, bind, fetch. cbn [val tokens calls]. rewrite Hnet. reflexivity.
  - intros b ps Hfail. unfold wrapWrite, bind, proxy, bind, fetch.
    cbn [val tokens calls].
    destruct Hfail as [-> | (s & ->)]; reflexivity.
Qed.

(* ------------------------------------------------------------------ *)
(** ** Where a proxy call comes from *)

Lemma stack_bodies_ok : forallb body_ok (tl stack) = true.
Proof. vm_compute. reflexivity. Qed.

(** X14.  A proxy call carries [JSON.stringify(req.body)] of the request it
    serves, under a JSON content type, exactly when the request is a POST or
    a PATCH; the call for a GET or a DELETE has no body and no header. *)
Theorem body_is_forwarded_on_writes (w : World) (r : Request) (t : float)
    (b : RouteBinding) (o : OutReq)
    (Hcall : In (SProxy b, o) (calls (serve w r t))) :
  match method r with
  | POST | PATCH =>
      o_body o = Stringify (body r)
      /\ exists ct more,
           o_headers o = (ct, Some (JStr "application/json")) :: more
  | _ => o_body o = NoBody /\ o_headers o = []
  end.
Proof.
  destruct (serve_proxy_call_origin w r t b o Hcall)
    as (m & pattern & ps & c' & Hin & Hm & _ & Hrq & ->).
  pose proof stack_bodies_ok as Hok. rewrite forallb_forall in Hok.
  specialize (Hok _ Hin). cbn [body_ok] in Hok.
  pose proof stack_verbs_ok as Hv. rewrite forallb_forall in Hv.
  specialize (Hv _ Hin). cbn [verb_ok] in Hv.
  apply andb_prop in Hv as [_ Hhead]. apply negb_true_iff in Hhead.
  pose proof (serves_served_as _ _ Hm Hhead) as Hs.
  unfold outreq. rewrite Hrq.
  destruct (opts b) as [|m'|m' ct uid].
  - apply method_eqb_eq in Hok. rewrite Hok in Hs.
    destruct (method r); try discriminate Hs; cbn; split; reflexivity.
  - apply andb_prop in Hok as [Hok _]. apply method_eqb_eq in Hok. rewrite Hok in Hs.
    destruct (method r); try discriminate Hs; cbn; split; reflexivity.
  - apply andb_prop in Hok as [_ Hok].
    destruct m; try discriminate Hok;
      (destruct (method r); try discriminate Hs; cbn;
       (split; [reflexivity | eexists; eexists; reflexivity])).
Qed.

Lemma body_is_forwarded_on_writes_witness :
  o_body {| o_method := POST; o_url := "http://localhost:7004/forms";
            o_headers := [("content-type", Some (JStr "application/json"))];
            o_body := Stringify (Some (JObj [])) |}
  = Stringify (body (request POST "/api/forms" (Some "Bearer good"))).
Proof.
  refine (proj1 (body_is_forwarded_on_writes demo
                   (request POST "/api/forms" (Some "Bearer good")) 200
                   {| svc := FORMS; dpath := [Lit "forms"]; with_qs := false;
                      opts := json_post; label := "forms" |} _ _)).
  vm_compute. right. left. reflexivity.
Defined.

(** What a pattern binds it takes from the path, and not from an empty
    segment. *)
Lemma match_path_binds (pattern : list Seg) :
  forall (ss : list string) (raw : list (string * string)) (n : string),
    match_path pattern ss = Some raw ->
    existsb (is_par n) pattern = true ->
    binds n raw = true /\ In (param raw n) ss /\ param raw n <> "".
Proof.
  induction pattern as [|[x|n'] pattern IH]; intros ss raw n Hm Hn.
  - discriminate Hn.
  - destruct ss as [|s ss]; [discriminate Hm|]. cbn [match_path] in Hm.
    destruct (same_literal x s); [|discriminate Hm].
    cbn [existsb is_par orb] in Hn.
    destruct (IH ss raw n Hm Hn) as (Hb & Hin & Hne).
    repeat split; [exact Hb | now right | exact Hne].
  - destruct ss as [|s ss]; [discriminate Hm|]. cbn [match_path] in Hm.
    destruct (String.eqb s "") eqn:Es; [discriminate Hm|].
    destruct (match_path pattern ss) as [raw'|] eqn:Er; [|discriminate Hm].
    injection Hm as <-. unfold binds. cbn [param existsb fst].
    cbn [existsb is_par] in Hn.
    destruct (String.eqb n n') eqn:En.
    + repeat split; [now left | now apply String.eqb_neq].
    + cbn [orb] in Hn. destruct (IH ss raw' n Er Hn) as (Hb & Hin & Hne).
      repeat split; [exact Hb | now right | exact Hne].
Qed.

(** Decoding keeps the names and decodes each text. *)
Lemma decode_params_binds (rt : Runtime) (raw : list (string * string)) :
  forall (ps : Params) (n : string),
    decode_params rt raw = Some ps ->
    binds n raw = true ->
    decodeURIComponent rt (param raw n) = Some (param ps n).
Proof.
  unfold decode_params, binds.
  induction raw as [|[k v] raw IH]; intros ps n Hd Hb; [discriminate Hb|].
  cbn [map sequence fst snd] in Hd.
  destruct (decodeURIComponent rt v) as [v'|] eqn:Ev; [|discriminate Hd].
  cbn [option_map] in Hd.
  destruct (sequence _) as [ps'|] eqn:Es; [|discriminate Hd].
  injection Hd as <-. cbn [param existsb fst] in *.
  destruct (String.eqb n k); [exact Ev|].
  cbn [orb] in Hb. exact (IH ps' n eq_refl Hb).
Qed.

Lemma stack_params_bound : forallb params_bound (tl stack) = true.
Proof. vm_compute. reflexivity. Qed.

(** X15.  The address of a proxy call is the base address of its service,
    as read when the process started, followed by the handler's path and,
    on the routes that forward it, by "?" and the query string.  Every
    parameter in that path is the percent-decoding of a segment of the
    inbound path, and not of an empty one: no "undefined" finds its way
    into an address, and an escaped slash of the inbound segment arrives
    downstream as a slash. *)
Theorem downstream_address (w : World) (r : Request) (t : float)
    (b : RouteBinding) (o : OutReq)
    (Hcall : In (SProxy b, o) (calls (serve w r t))) :
  exists ps,
    o_url o =
    base (boot w) (svc b) ++ render ps (dpath b)
    ++ (if with_qs b then "?" ++ qs r else "")
    /\ forall n, In (Par n) (dpath b) ->
                 exists seg,
                   In seg (segs r) /\ seg <> ""
                   /\ decodeURIComponent (js w) seg = Some (param ps n).
Proof.
  destruct (serve_proxy_call_origin w r t b o Hcall)
    as (m & pattern & ps & c' & Hin & _ & Hmatch & Hrq & ->).
  exists ps. split.
  - rewrite outreq_url. unfold url_of. now rewrite Hrq.
  - intros n Hn.
    pose proof stack_params_bound as Hok. rewrite forallb_forall in Hok.
    specialize (Hok _ Hin). cbn [params_bound] in Hok.
    rewrite forallb_forall in Hok. specialize (Hok _ Hn). cbn in Hok.
    unfold match_route in Hmatch.
    destruct (match_path pattern (segs r)) as [raw|] eqn:Ep; [|discriminate Hmatch].
    destruct (decode_params (js w) raw) as [ps'|] eqn:Ed; [|discriminate Hmatch].
    injection Hmatch as ->.
    destruct (match_path_binds pattern (segs r) raw n Ep Hok) as (Hb & Hseg & Hne).
    exists (param raw n). repeat split; [exact Hseg | exact Hne|].
    exact (decode_params_binds (js w) raw ps n Ed Hb).
Qed.

Lemma downstream_address_witness :
  exists ps,
    o_url (plain_get "http://localhost:7003/org/a/b") =
    base (boot demo) ORG ++ render ps [Lit "org"; Par "id"] ++ ""
    /\ forall n, In (Par n) [Lit "org"; Par "id"] ->
                 exists seg,
                   In seg (segs (request GET "/api/org/a%2Fb" (Some "Bearer good")))
                   /\ seg <> ""
                   /\ decodeURIComponent (js demo) seg = Some (param ps n).
Proof.
  apply (downstream_address demo (request GET "/api/org/a%2Fb" (Some "Bearer good")) 200
           org_by_id (plain_get "http://localhost:7003/org/a/b")).
  vm_compute. right. left. reflexivity.
Defined.

Lemma service_eqb_refl (s : Service) : service_eqb s s = true.
Proof. destruct s; reflexivity. Qed.

Lemma stack_labels_agree : labels_agree (bindings stack) = true.
Proof. vm_compute. reflexivity. Qed.

(** X16.  The 502 message names the service consistently: two proxy
    handlers of the application that call the same service carry the same
    label, so a failed call to a service is reported under one name whatever
    route it came through. *)
Theorem one_label_per_service (w : World) (r r' : Request) (t t' : float)
    (b b' : RouteBinding) (o o' : OutReq)
    (Hcall : In (SProxy b, o) (calls (serve w r t)))
    (Hcall' : In (SProxy b', o') (calls (serve w r' t')))
    (Hsame : svc b = svc b') :
  label b = label b'.
Proof.
  assert (Hb : forall r0 t0 b0 o0,
             In (SProxy b0, o0) (calls (serve w r0 t0)) -> In b0 (bindings stack)).
  { intros r0 t0 b0 o0 H.
    destruct (serve_proxy_call_origin w r0 t0 b0 o0 H)
      as (m & pattern & _ & _ & Hin & _).
    unfold bindings. apply in_flat_map.
    exists (Route m pattern (hProxy b0)). split; [|now left].
    rewrite stack_head. now right. }
  pose proof stack_labels_agree as Hok. unfold labels_agree in Hok.
  rewrite forallb_forall in Hok. specialize (Hok b (Hb _ _ _ _ Hcall)).
  rewrite forallb_forall in Hok. specialize (Hok b' (Hb _ _ _ _ Hcall')).
  rewrite Hsame, service_eqb_refl in Hok. cbn [negb orb] in Hok.
  now apply String.eqb_eq.
Qed.

Lemma one_label_per_service_witness :
  label org_by_id =
  label {| svc := ORG; dpath := [Lit "brand"]; with_qs := true;
           opts := Plain; label := "org" |}.
Proof.
  apply (one_label_per_service demo
           (request GET "/api/org/7" (Some "Bearer good"))
           (request GET "/api/brand" (Some "Bearer good")) 200 200
           org_by_id _
           (plain_get "http://localhost:7003/org/7")
           (plain_get "http://localhost:7003/brand?")).
  - vm_compute. right. left. reflexivity.
  - vm_compute. right. left. reflexivity.
  - reflexivity.
Defined.

(* ------------------------------------------------------------------ *)
(** ** /readyz, the entitlements that do resolve, and the answers of the
       framework *)

(** /readyz behind the limiter: what the first matching layer is, verb by
    verb. *)
Lemma readyz_first_hit (rt : Runtime) (r : Request) :
  segs r = ["readyz"] ->
  first_hit rt behind_limiter r =
  if method_eqb (method r) GET || method_eqb (method r) HEAD
  then At hReadyz [] (skipn 2 behind_limiter)
  else Nowhere.
Proof.
  intros Hs. destruct r as [m ss hid ha q rf bd]. cbn [segs method] in *. subst ss.
  destruct m; vm_compute; reflexivity.
Qed.

(** X17.  /readyz is open to requests without credentials but not to the
    limiter.  A GET that [express.json] passes on, whatever its headers, is
    answered 200 [{status: "ready"}] (no requestId in it) at the cost of one
    unit of the counter, and 429 when the counter is zero or below; a HEAD
    is served by the same handler.  An OPTIONS request is answered 204 by
    [cors] and costs nothing.  Any other verb on the path finds no handler
    and ends, counted by the limiter, in the framework's 404. *)
Theorem readyz_behind_the_limiter (w : World) (r : Request) (t : float)
    (Hpath : segs r = ["readyz"])
    (Hbody : refused r = None) :
  serve w r t =
  if method_eqb (method r) OPTIONS
  then {| val := Lib 204; tokens := t; calls := [] |}
  else if (t <=? 0)%float
  then {| val := Json 429 (JObj [("message", JStr "Too many requests");
                                 ("requestId", JStr (request_id w r))]);
          tokens := t; calls := [] |}
  else if method_eqb (method r) GET || method_eqb (method r) HEAD
  then {| val := Json 200 (JObj [("status", JStr "ready")]);
          tokens := (t - 1)%float; calls := [] |}
  else {| val := NotFound; tokens := (t - 1)%float; calls := [] |}.
Proof.
  destruct (method_eqb (method r) OPTIONS) eqn:Eo.
  - apply method_eqb_eq in Eo. rewrite serve_to_auth, Eo. reflexivity.
  - rewrite serve_open.
    + rewrite behind_auth_head, run_limiter. cbn [identified id].
      destruct (t <=? 0)%float; [reflexivity|].
      rewrite run_first_hit, readyz_first_hit by exact Hpath.
      cbn [identified rq].
      destruct (method_eqb (method r) GET || method_eqb (method r) HEAD);
        reflexivity.
    + unfold reaches_auth. now rewrite Eo, Hbody.
    + unfold path. rewrite Hpath. right; left; reflexivity.
Qed.

Lemma readyz_behind_the_limiter_witness :
  serve demo (request HEAD "/readyz" None) 200 =
  {| val := Json 200 (JObj [("status", JStr "ready")]); tokens := 199; calls := [] |}.
Proof.
  exact (readyz_behind_the_limiter demo (request HEAD "/readyz" None) 200
           eq_refl eq_refl).
Defined.

(** X18.  When the entitlement service answers with a success status and a
    body that decodes, that body becomes [req.entitlements] as it is,
    whatever its shape; when it is not an object (null, a number, a text, a
    list) every guard lets the request through. *)
Theorem entitlements_are_taken_as_sent (w : World) (r : Request) (t : float)
    (token : string) (p : Payload) (url : string) (status : Z) (sent : json)
    (Hprotected : ~ In (path r) openPaths)
    (Hbearer : carries_bearer r token)
    (Hverified : jwt_verify w token (secret w) = Some p)
    (Haddress :
       entitlements_url (js w) (env w) (tenant_of (js w) (Some (payload_json p)))
       = Some url)
    (Hreply :
       net w {| o_method := GET; o_url := url; o_headers := []; o_body := NoBody |}
       = Reply status (Some sent))
    (Hsuccess : 200 <= status <= 299) :
  let c' := {| rq := r; id := request_id w r; user := Some (payload_json p);
               entitlements := Some sent |} in
  auth w (identified w r) t =
  {| val := Next c'; tokens := t;
     calls := [(SEntitlements,
                {| o_method := GET; o_url := url; o_headers := [];
                   o_body := NoBody |})] |}
  /\ ((forall fields, sent <> JObj fields) ->
      forall key t',
        moduleEnabled (js w) key c' t' = ret (Next c') t'
        /\ featureEnabled (js w) key c' t' = ret (Next c') t').
Proof.
  intros c'. split.
  - rewrite (auth_resolves w (identified w r) t token p) by assumption.
    unfold entitlements_for, entitlement_calls, entitlement_address.
    rewrite Haddress, Hreply.
    replace (200 <=? status) with true by (symmetry; apply Z.leb_le; lia).
    replace (status <=? 299) with true by (symmetry; apply Z.leb_le; lia).
    reflexivity.
  - intros Hshape key t'. rewrite moduleEnabled_spec, featureEnabled_spec.
    subst c'. cbn [entitlements].
    destruct sent as [| b | n | s | l | fs]; try (split; reflexivity).
    exfalso. now apply (Hshape fs).
Qed.

Lemma entitlements_are_taken_as_sent_witness :
  auth demo (identified demo (request GET "/api/org/7" (Some "Bearer good"))) 200 =
  {| val :=
       Next {| rq := request GET "/api/org/7" (Some "Bearer good"); id := "req-1";
               user := Some (JObj [("id", JStr "u1");
                                   ("scopes", JObj [("orgId", JStr "acme")])]);
               entitlements :=
                 Some (JObj [("modules", JObj [("forms", JBool false)]);
                             ("features", JObj [("i18n", JBool false)])]) |};
     tokens := 200;
     calls := [(SEntitlements,
                {| o_method := GET;
                   o_url := "http://localhost:7002/entitlements/acme";
                   o_headers := []; o_body := NoBody |})] |}.
Proof.
  refine (proj1 (entitlements_are_taken_as_sent demo
                   (request GET "/api/org/7" (Some "Bearer good")) 200 "good"
                   (PObj [("id", JStr "u1"); ("scopes", JObj [("orgId", JStr "acme")])])
                   "http://localhost:7002/entitlements/acme"
                   200 _ _ _ _ _ _ _)).
  - intros [H|[H|[H|[]]]]; discriminate H.
  - split; [reflexivity | discriminate].
  - reflexivity.
  - reflexivity.
  - reflexivity.
  - split; discriminate.
Defined.

Lemma outcome_lib (w : World) (ident : string) (cs : list Call) (resp : Response)
    (s : Z) :
  Outcome w ident cs resp -> resp = Lib s -> In s [204; 400; 413; 415] /\ cs = [].
Proof.
  intros Hout Hresp.
  destruct Hout; try discriminate Hresp. injection Hresp as <-. now split.
Qed.

(** X20.  The answers that are not the gateway's own.  [cors] answers every
    OPTIONS request 204, ahead of the auth middleware and of the limiter: no
    token is asked for, the counter is left alone, nothing is called.  A
    request whose body [express.json] refuses is answered 400, 413 or 415 in
    the same way.  An answer without a body of the gateway has one of these
    four statuses, and no request answered so was forwarded to a service. *)
Theorem library_answers (w : World) (r : Request) (t : float) :
  (method r = OPTIONS ->
   serve w r t = {| val := Lib 204; tokens := t; calls := [] |})
  /\ (forall e,
         method r <> OPTIONS -> refused r = Some e ->
         serve w r t =
         {| val := Lib match e with
                       | BadRequest => 400
                       | TooLarge => 413
                       | UnsupportedMedia => 415
                       end;
            tokens := t; calls := [] |})
  /\ (forall s,
         val (serve w r t) = Lib s ->
         In s [204; 400; 413; 415]
         /\ forall b o, ~ In (SProxy b, o) (calls (serve w r t))).
Proof.
  split; [|split].
  - intros Hm. rewrite serve_to_auth, Hm. reflexivity.
  - intros e Hm He. rewrite serve_to_auth, He.
    destruct (method r); try reflexivity; try (destruct e; reflexivity).
    now elim Hm.
  - intros s Hs.
    destruct (serve_outcome w r t) as (pre & cs & Hc & Hpre & Hout).
    destruct (outcome_lib w _ cs _ s Hout Hs) as [Hin ->].
    split; [exact Hin|].
    intros b o H. rewrite Hc, app_nil_r in H.
    apply (not_from _ _ _ _ Hpre) in H. discriminate H.
Qed.

(** X21.  A path that fits /api/org/:id with a parameter that does not
    percent-decode is answered 400 by the framework, whatever the verb of
    the request: the request has been counted by the limiter, and no call
    to org-service is made. *)
Theorem undecodable_parameter_is_400 (w : World) (c : Ctx) (t : float) (x : string)
    (Hpath : segs (rq c) = ["api"; "org"; x])
    (Hfilled : x <> "")
    (Hescape : decodeURIComponent (js w) x = None)
    (Hcapacity : (t <=? 0)%float = false) :
  run_stack w behind_auth c t =
  {| val := Lib 400; tokens := (t - 1)%float; calls := [] |}.
Proof.
  rewrite behind_auth_layers. generalize (skipn 12 stack) as later; intros later.
  rewrite run_limiter, Hcapacity.
  do 4 (rewrite run_skip
          by (unfold layer_match, match_route; rewrite Hpath; reflexivity)).
  apply run_broken.
  rewrite (org_route_match (js w) _ (rq c) x Hpath Hfilled), Hescape. reflexivity.
Qed.

Lemma undecodable_parameter_is_400_witness :
  run_stack demo behind_auth
    {| rq := request POST "/api/org/%ZZ" None; id := "req-1"; user := None;
       entitlements := None |} 200 =
  {| val := Lib 400; tokens := 199; calls := [] |}.
Proof.
  refine (undecodable_parameter_is_400 demo
            {| rq := request POST "/api/org/%ZZ" None; id := "req-1"; user := None;
               entitlements := None |} 200 "%ZZ" eq_refl _ eq_refl eq_refl).
  discriminate.
Defined.
